(** * FrankStack / frank-ops-aws: the LocalStack Lambda scripts

    A shallow embedding of the three Python scripts of
    [frank-ops/frank-ops-aws]:

    - [lambda_hello.py]: the strict handler (subscript lookups);
    - [send_hello_batch.py]: the logging handler ([print] and [dict.get]);
    - [lambda_boto3_test.py]: the invoker (create-if-absent, then invoke).

    Python objects live in a store: a dict is a heap object reached through a
    reference, so that "the handler does not change its argument" and "the
    result is a new dict" are statements about the store and not about a
    value that could not change anyway.  Exceptions are a result type, and
    [print] appends to the process's standard output.

    What the scripts call and the repository does not hold is kept apart:
    the boto3 client is an argument of the invoker, the Lambda service's
    create-function call is written after the spec, and Python's [json]
    module is written after CPython's on the fragment the wire format
    uses. *)

From stdpp Require Import gmap list fin_maps.
From Stdlib Require Import NArith ZArith Ascii String Lia.

Local Open Scope N_scope.

(** ** Strings

    A Python [str] is a sequence of code points, each in [range(0x110000)];
    surrogate code points (0xD800..0xDFFF) are allowed in a [str]. *)

Abbreviation pystr := (list N) (only parsing).

(** The [str] written as an ASCII literal in the source. *)
Definition py (s : string) : pystr :=
  List.map N_of_ascii (list_ascii_of_string s).

(** Every element is a code point Python can hold. *)
Definition is_str (s : pystr) : bool :=
  forallb (fun c => c <? 0x110000) s.

(** ** Values, objects and the store *)

Abbreviation loc := positive (only parsing).

(** Immutable values are carried as they are; a container is a reference
    into the store.  A float is kept as its IEEE-754 binary64 bit pattern:
    the scripts never compute with one. *)
Inductive pyval : Type :=
| PyNone
| PyBool (b : bool)
| PyInt (n : Z)
| PyFloat (bits : N)
| PyStr (s : pystr)
| PyRef (l : loc).

(** A dict keeps its items in insertion order; the keys the scripts use,
    and the keys of a decoded JSON object, are [str]. *)
Inductive pyobj : Type :=
| ODict (items : list (pystr * pyval))
| OList (elems : list pyval).

(** One call of [print]: the arguments, and the store they were rendered
    against (the text of a container is read from the store at that time). *)
Record printed : Type := Printed {
  print_args : list pyval;
  print_heap : gmap positive pyobj
}.

(** What [create_function] is given: the keyword arguments of the call in
    [lambda_boto3_test.py]; [ZipFile] is the content of the code bundle. *)
Record function_config : Type := FunctionConfig {
  FunctionName : pystr;
  Runtime : pystr;
  Role : pystr;
  Handler : pystr;
  ZipFile : list N
}.

(** The state a script runs in: its store, what it has printed, and, outside
    the process, the functions the Lambda service at the endpoint holds,
    keyed by name. *)
Record world : Type := World {
  heap : gmap positive pyobj;
  stdout : list printed;
  deployed : gmap (list N) function_config
}.

(** ** Exceptions *)

Inductive exn : Type :=
| KeyError (key : pystr)
| TypeError
| AttributeError
| ResourceConflictException
| OtherException (name : pystr)
| DanglingReference.

Inductive result (A : Type) : Type :=
| Ok (a : A)
| Raise (e : exn).
Arguments Ok {A} a.
Arguments Raise {A} e.

(** ** The interpreter monad: state and exceptions *)

Definition M (A : Type) : Type := world -> result A * world.

Definition ret {A} (a : A) : M A := fun w => (Ok a, w).

Definition bind {A B} (m : M A) (k : A -> M B) : M B :=
  fun w =>
    match m w with
    | (Ok a, w') => k a w'
    | (Raise e, w') => (Raise e, w')
    end.

Definition raise {A} (e : exn) : M A := fun w => (Raise e, w).

Declare Scope py_scope.
Delimit Scope py_scope with py.
Notation "x <- m ;; k" := (bind m (fun x => k))
  (at level 100, m at next level, right associativity) : py_scope.
Notation "m ;; k" := (bind m (fun _ => k))
  (at level 100, right associativity) : py_scope.
Local Open Scope py_scope.

(** [try: body except C: handler], for an exception class given as a
    decidable test.  The state reached when the exception was raised stays. *)
Definition try_except {A} (body : M A) (catches : exn -> bool) (handler : M A) : M A :=
  fun w =>
    match body w with
    | (Ok a, w') => (Ok a, w')
    | (Raise e, w') => if catches e then handler w' else (Raise e, w')
    end.

(** ** Dict operations *)

(** Lookup by key. *)
Fixpoint dict_get {V : Type} (k : pystr) (d : list (pystr * V)) : option V :=
  match d with
  | [] => None
  | (k', v) :: d' => if decide (k' = k) then Some v else dict_get k d'
  end.

(** [d[k] = v]: an existing key keeps its place, a new key goes last. *)
Fixpoint dict_set {V : Type} (k : pystr) (v : V) (d : list (pystr * V))
  : list (pystr * V) :=
  match d with
  | [] => [(k, v)]
  | (k', v') :: d' =>
      if decide (k' = k) then (k, v) :: d' else (k', v') :: dict_set k v d'
  end.

(** [d.pop(k, None)]: the dict without the key. *)
Fixpoint dict_del {V : Type} (k : pystr) (d : list (pystr * V)) : list (pystr * V) :=
  match d with
  | [] => []
  | (k', v') :: d' =>
      if decide (k' = k) then dict_del k d' else (k', v') :: dict_del k d'
  end.

(** The dict display [{k1: v1, ..., kn: vn}] once its keys and values are
    evaluated: items are stored left to right. *)
Definition dict_display {V : Type} (kvs : list (pystr * V)) : list (pystr * V) :=
  fold_left (fun d kv => dict_set (fst kv) (snd kv) d) kvs [].

(** ** Primitive operations of the interpreter *)

(** A new object, at an address the store does not use. *)
Definition alloc (o : pyobj) : M pyval :=
  fun w =>
    let l := fresh (dom (heap w)) in
    (Ok (PyRef l), World (<[l := o]> (heap w)) (stdout w) (deployed w)).

(** [{k1: v1, ...}] *)
Definition build_map (kvs : list (pystr * pyval)) : M pyval :=
  alloc (ODict (dict_display kvs)).

(** [obj[key]] for a [str] key: [dict.__getitem__] raises [KeyError(key)];
    a list, a str or a scalar indexed by a str raises [TypeError]. *)
Definition subscript (obj : pyval) (key : pystr) : M pyval :=
  fun w =>
    match obj with
    | PyRef l =>
        match heap w !! l with
        | Some (ODict d) =>
            match dict_get key d with
            | Some v => (Ok v, w)
            | None => (Raise (KeyError key), w)
            end
        | Some (OList _) => (Raise TypeError, w)
        | None => (Raise DanglingReference, w)
        end
    | _ => (Raise TypeError, w)
    end.

(** [obj.get(key)]: only a dict has the method; the default is [None]. *)
Definition method_get (obj : pyval) (key : pystr) : M pyval :=
  fun w =>
    match obj with
    | PyRef l =>
        match heap w !! l with
        | Some (ODict d) =>
            match dict_get key d with
            | Some v => (Ok v, w)
            | None => (Ok PyNone, w)
            end
        | Some (OList _) => (Raise AttributeError, w)
        | None => (Raise DanglingReference, w)
        end
    | _ => (Raise AttributeError, w)
    end.

(** [print(a1, ..., an)] *)
Definition print (args : list pyval) : M unit :=
  fun w =>
    (Ok tt, World (heap w) (stdout w ++ [Printed args (heap w)]) (deployed w)).

(** ** lambda_hello.py *)

Module lambda_hello.

(** [def handler(event, context):
       return {"correlationID": event["correlationID"],
               "message": event["message"]}] *)
Definition handler {Ctx : Type} (event : pyval) (context : Ctx) : M pyval :=
  cid <- subscript event (py "correlationID") ;;
  msg <- subscript event (py "message") ;;
  build_map [(py "correlationID", cid); (py "message", msg)].

End lambda_hello.

(** ** send_hello_batch.py *)

Module send_hello_batch.

(** The statements run when the module is loaded:
    [payload = {"message":"hello world","correlationID":"123"}]
    [print(payload["correlationID"], ",", payload["message"])];
    the result is the module's global [payload]. *)
Definition module_body : M pyval :=
  payload <- build_map [(py "message", PyStr (py "hello world"));
                        (py "correlationID", PyStr (py "123"))] ;;
  cid <- subscript payload (py "correlationID") ;;
  msg <- subscript payload (py "message") ;;
  print [cid; PyStr (py ","); msg] ;;
  ret payload.

(** [def handler(event, context):
       print("Lambda invoked! Event:", event)
       return {"correlationID": event.get("correlationID"),
               "message": event.get("message")}] *)
Definition handler {Ctx : Type} (event : pyval) (context : Ctx) : M pyval :=
  print [PyStr (py "Lambda invoked! Event:"); event] ;;
  cid <- method_get event (py "correlationID") ;;
  msg <- method_get event (py "message") ;;
  build_map [(py "correlationID", cid); (py "message", msg)].

End send_hello_batch.

(** ** lambda_boto3_test.py *)

Module lambda_boto3_test.

Definition is_ResourceConflictException (e : exn) : bool :=
  match e with
  | ResourceConflictException => true
  | _ => false
  end.

Section Invoker.

(** [lambda_client.create_function]: the boto3 client is not part of the
    repository, the script is read against any client. *)
Variable create_function : function_config -> M pyval.

(** [code_bytes = f.read()], the content of [lambda_hello.zip]. *)
Variable code_bytes : list N.

(** The arguments of the script's one [create_function] call. *)
Definition hello_config : function_config :=
  {| FunctionName := py "helloLambda";
     Runtime := py "python3.11";
     Role := py "arn:aws:iam::000000000000:role/lambda-role";
     Handler := py "lambda_hello.handler";
     ZipFile := code_bytes |}.

(** Lines 20-29, the spec's "ensure function exists":
    [try:
         response = lambda_client.create_function(...)
     except lambda_client.exceptions.ResourceConflictException:
         print("Lambda helloLambda already exists, skipping creation")] *)
Definition ensure_function_exists : M unit :=
  try_except
    (response <- create_function hello_config ;; ret tt)
    is_ResourceConflictException
    (print [PyStr (py "Lambda helloLambda already exists, skipping creation")]).

End Invoker.

(** Modelled from the spec: the create-function call of the Lambda service
    behind the client (boto3 against LocalStack, neither is in the
    repository).  Section 6: the call "returns success or a 'resource
    already exists' signal"; section 3: the function resource is "keyed by
    name" and "never mutated or deleted by these scripts".  The response of
    a successful call, which the script never reads, is [None] here. *)
Definition service_create_function (cfg : function_config) : M pyval :=
  fun w =>
    match deployed w !! FunctionName cfg with
    | Some _ => (Raise ResourceConflictException, w)
    | None =>
        (Ok PyNone,
         World (heap w) (stdout w) (<[FunctionName cfg := cfg]> (deployed w)))
    end.

End lambda_boto3_test.

(** ** What a call is observed to do *)

(** The dict a call returned: [Some items] when the call returned (did not
    raise) a reference to a dict holding [items]. *)
Definition returned_dict (r : result pyval * world) : option (list (pystr * pyval)) :=
  match r with
  | (Ok (PyRef l), w) =>
      match heap w !! l with
      | Some (ODict d) => Some d
      | _ => None
      end
  | _ => None
  end.


(** ** The JSON codec of the wire format

    [lambda_boto3_test.py] sends [json.dumps(payload)] and reads the answer
    with [json.loads].  Python's [json] module is not part of the
    repository; it is modelled here on the fragment the wire format of the
    spec uses (section 6: a "JSON object" whose fields are strings): flat
    objects with [str] keys and [str] values.  The model follows CPython's
    [json.encoder] and [json.decoder] with the default arguments
    ([ensure_ascii=True], separators [", "] and [": "], [strict=True]). *)

Module json.

(** *** Encoder *)

(** One digit of ['{0:04x}'.format(n)]: lower-case hexadecimal. *)
Definition hex_digit (n : N) : N :=
  if n <? 10 then 48 + n else 87 + n.

(** ['\\u{0:04x}'.format(n)], for [n < 0x10000]. *)
Definition u_escape (n : N) : list N :=
  [92; 117;
   hex_digit (n / 4096 mod 16); hex_digit (n / 256 mod 16);
   hex_digit (n / 16 mod 16); hex_digit (n mod 16)].

(** [replace] of [py_encode_basestring_ascii]: what one code point becomes.
    [ESCAPE_ASCII] matches a backslash, a double quote and everything
    outside [' '..'~']; [ESCAPE_DCT] holds the short escapes; the rest is
    written as [\uXXXX], above the basic plane as a surrogate pair. *)
Definition escape_char (c : N) : list N :=
  if c =? 34 then [92; 34]
  else if c =? 92 then [92; 92]
  else if c =? 8 then [92; 98]
  else if c =? 12 then [92; 102]
  else if c =? 10 then [92; 110]
  else if c =? 13 then [92; 114]
  else if c =? 9 then [92; 116]
  else if (32 <=? c) && (c <=? 126) then [c]
  else if c <? 0x10000 then u_escape c
  else
    let n := c - 0x10000 in
    let s1 := N.lor 0xd800 (N.land (N.shiftr n 10) 0x3ff) in
    let s2 := N.lor 0xdc00 (N.land n 0x3ff) in
    u_escape s1 ++ u_escape s2.

(** [ESCAPE_ASCII.sub(replace, s)] *)
Definition escape_all (s : list N) : list N :=
  flat_map escape_char s.

(** [py_encode_basestring_ascii(s)]: the escaped text between double
    quotes. *)
Definition py_encode_basestring_ascii (s : list N) : list N :=
  34 :: escape_all s ++ [34].

(** One member, [key ": " value]. *)
Definition encode_item (kv : list N * list N) : list N :=
  py_encode_basestring_ascii kv.1 ++ [58; 32] ++ py_encode_basestring_ascii kv.2.

(** The members joined by [", "]. *)
Fixpoint encode_items (items : list (list N * list N)) : list N :=
  match items with
  | [] => []
  | [kv] => encode_item kv
  | kv :: rest => encode_item kv ++ [44; 32] ++ encode_items rest
  end.

(** Modelled from the spec: [json.dumps] of Python's standard library (not
    in the repository), on a flat dict of [str] to [str] given by its items
    in insertion order; the spec's wire format is a "JSON object" with
    string fields.  As [_iterencode_dict] writes it: ["{"], the members,
    ["}"]. *)
Definition dumps (items : list (list N * list N)) : list N :=
  123 :: encode_items items ++ [125].

(** *** Decoder *)

(** [WHITESPACE]: blank, tab, line feed, carriage return. *)
Definition is_ws (c : N) : bool :=
  (c =? 32) || (c =? 9) || (c =? 10) || (c =? 13).

(** [s[_w(s, end).end():]] *)
Fixpoint skip_ws (s : list N) : list N :=
  match s with
  | [] => []
  | c :: s' => if is_ws c then skip_ws s' else s
  end.

(** The value of one hexadecimal digit, [0-9A-Fa-f]. *)
Definition hex_value (c : N) : option N :=
  if (48 <=? c) && (c <=? 57) then Some (c - 48)
  else if (97 <=? c) && (c <=? 102) then Some (c - 87)
  else if (65 <=? c) && (c <=? 70) then Some (c - 55)
  else None.

(** [_decode_uXXXX]: [int(esc, 16)] of four hexadecimal digits. *)
Definition decode_uXXXX (h1 h2 h3 h4 : N) : option N :=
  match hex_value h1, hex_value h2, hex_value h3, hex_value h4 with
  | Some a, Some b, Some c, Some d => Some (((a * 16 + b) * 16 + c) * 16 + d)
  | _, _, _, _ => None
  end.

(** [BACKSLASH]: the character a short escape stands for. *)
Definition backslash (esc : N) : option N :=
  if esc =? 34 then Some 34
  else if esc =? 92 then Some 92
  else if esc =? 47 then Some 47
  else if esc =? 98 then Some 8
  else if esc =? 102 then Some 12
  else if esc =? 110 then Some 10
  else if esc =? 114 then Some 13
  else if esc =? 116 then Some 9
  else None.

(** [0xd800 <= uni <= 0xdbff] *)
Definition is_high_surrogate (uni : N) : bool :=
  (0xd800 <=? uni) && (uni <=? 0xdbff).

(** [0xdc00 <= uni2 <= 0xdfff] *)
Definition is_low_surrogate (uni : N) : bool :=
  (0xdc00 <=? uni) && (uni <=? 0xdfff).

(** [_append(char)] on the result of the rest of the scan. *)
Definition append_char (c : N) (r : option (list N * list N))
  : option (list N * list N) :=
  match r with
  | Some (content, rest) => Some (c :: content, rest)
  | None => None
  end.

(** [py_scanstring(s, end)], [s] read from just after the opening quote:
    the content and the text after the closing quote, [None] where the
    decoder raises [JSONDecodeError].  An escaped high surrogate directly
    followed by an escaped low surrogate is joined into one code point. *)
Fixpoint py_scanstring (s : list N) : option (list N * list N) :=
  match s with
  | [] => None
  | c :: s1 =>
      if c =? 34 then Some ([], s1)
      else if c =? 92 then
        match s1 with
        | [] => None
        | esc :: s2 =>
            if esc =? 117 then
              match s2 with
              | h1 :: h2 :: h3 :: h4 :: s3 =>
                  match decode_uXXXX h1 h2 h3 h4 with
                  | None => None
                  | Some uni =>
                      if is_high_surrogate uni then
                        match s3 with
                        | b :: u :: s4 =>
                            if (b =? 92) && (u =? 117) then
                              match s4 with
                              | g1 :: g2 :: g3 :: g4 :: s5 =>
                                  match decode_uXXXX g1 g2 g3 g4 with
                                  | None => None
                                  | Some uni2 =>
                                      if is_low_surrogate uni2 then
                                        append_char
                                          (0x10000 + N.lor (N.shiftl (uni - 0xd800) 10)
                                                           (uni2 - 0xdc00))
                                          (py_scanstring s5)
                                      else append_char uni (py_scanstring s3)
                                  end
                              | _ => None
                              end
                            else append_char uni (py_scanstring s3)
                        | _ => append_char uni (py_scanstring s3)
                        end
                      else append_char uni (py_scanstring s3)
                  end
              | _ => None
              end
            else
              match backslash esc with
              | Some ch => append_char ch (py_scanstring s2)
              | None => None
              end
        end
      else if c <? 32 then None
      else append_char c (py_scanstring s1)
  end.

(** The loop of [JSONObject], [s] read from just after the opening quote of
    a key: key, [":"], value, then ["}"] or [","] and the next key.  A value
    that does not start with a double quote is outside the fragment.  Every
    turn reads at least one character, [fuel] bounds the turns. *)
Fixpoint parse_members (fuel : nat) (s : list N)
  : option (list (list N * list N) * list N) :=
  match fuel with
  | O => None
  | S fuel' =>
      match py_scanstring s with
      | None => None
      | Some (key, s1) =>
          match skip_ws s1 with
          | [] => None
          | c :: s2 =>
              if c =? 58 then
                match skip_ws s2 with
                | [] => None
                | q :: s3 =>
                    if q =? 34 then
                      match py_scanstring s3 with
                      | None => None
                      | Some (value, s4) =>
                          match skip_ws s4 with
                          | [] => None
                          | n :: s5 =>
                              if n =? 125 then Some ([(key, value)], s5)
                              else if n =? 44 then
                                match skip_ws s5 with
                                | [] => None
                                | q' :: s6 =>
                                    if q' =? 34 then
                                      match parse_members fuel' s6 with
                                      | Some (pairs, rest) =>
                                          Some ((key, value) :: pairs, rest)
                                      | None => None
                                      end
                                    else None
                                end
                              else None
                          end
                      end
                    else None
                end
              else None
          end
      end
  end.

(** [JSONObject((s, end))], [s] read from just after ["{"]: the dict built
    from the pairs ([dict(pairs)]: a repeated key keeps its first place and
    its last value) and the text after ["}"]. *)
Definition JSONObject (s : list N) : option (list (list N * list N) * list N) :=
  match skip_ws s with
  | [] => None
  | c :: s1 =>
      if c =? 125 then Some ([], s1)
      else if c =? 34 then
        match parse_members (List.length s1) s1 with
        | Some (pairs, rest) => Some (dict_display pairs, rest)
        | None => None
        end
      else None
  end.

(** Modelled from the spec: [json.loads] of Python's standard library (not
    in the repository), on the texts of the wire format: [Some items] for a
    flat JSON object whose values are strings, [None] where [json.loads]
    raises [JSONDecodeError] and for JSON that is outside the fragment.  As
    [JSONDecoder.decode] reads: white space, the value, white space, and
    nothing after. *)
Definition loads (s : list N) : option (list (list N * list N)) :=
  match skip_ws s with
  | [] => None
  | c :: s1 =>
      if c =? 123 then
        match JSONObject s1 with
        | Some (d, rest) =>
            match skip_ws rest with
            | [] => Some d
            | _ :: _ => None
            end
        | None => None
        end
      else None
  end.

End json.

(** No high surrogate is directly followed by a low surrogate: the [str]
    does not spell a code point above the basic plane as two. *)
Fixpoint no_surrogate_pair (s : list N) : bool :=
  match s with
  | [] => true
  | c :: s' =>
      match s' with
      | [] => true
      | c' :: _ =>
          negb (json.is_high_surrogate c && json.is_low_surrogate c')
          && no_surrogate_pair s'
      end
  end.

(** [lambda_boto3_test.py], lines 32 to 35: the payload and its text on the
    wire, [json.dumps(payload)]. *)
Definition payload_items : list (list N * list N) :=
  [(py "message", py "hello world"); (py "correlationID", py "123")].

(** ** lambda_boto3_test.py, the whole script *)

Module lambda_boto3_test_script.

Section Script.

(** What the script calls and the repository does not hold, each read as
    any action on the state: [open(name, "rb")] with [f.read()];
    [lambda_client.create_function] and [lambda_client.invoke] of the boto3
    client, the latter giving the response [resp]; the [read] method of
    [resp['Payload']]; [json.dumps] and [json.loads]. *)
Variable open_read : list N -> M (list N).
Variable create_function : function_config -> M pyval.
Variable invoke : list N -> list N -> M pyval.
Variable read : pyval -> M (list N).
Variable dumps : pyval -> M (list N).
Variable loads : list N -> M pyval.

(** Lines 31 to 38, what follows the [try] statement:
    [payload = {"message": "hello world", "correlationID": "123"}]
    [resp = lambda_client.invoke(FunctionName="helloLambda",
                                 Payload=json.dumps(payload))]
    [data = json.loads(resp['Payload'].read())]
    [print("Lambda response:", data)] *)
Definition invoke_hello : M unit :=
  payload <- build_map [(py "message", PyStr (py "hello world"));
                        (py "correlationID", PyStr (py "123"))] ;;
  text <- dumps payload ;;
  resp <- invoke (py "helloLambda") text ;;
  stream <- subscript resp (py "Payload") ;;
  body <- read stream ;;
  data <- loads body ;;
  print [PyStr (py "Lambda response:"); data].

(** The script, from line 17 on: read the bundle, make sure the function
    exists, invoke it. *)
Definition main : M unit :=
  code_bytes <- open_read (py "lambda_hello.zip") ;;
  lambda_boto3_test.ensure_function_exists create_function code_bytes ;;
  invoke_hello.

End Script.

End lambda_boto3_test_script.

(** ** Kinds of events *)



(** ** What the decoder makes of an encoded string *)

(** The [str] with every high surrogate that is directly followed by a low
    surrogate replaced, together with it, by the code point the pair
    stands for; read from the left, as the decoder reads. *)
Fixpoint join_surrogates (s : list N) : list N :=
  match s with
  | [] => []
  | c :: s' =>
      match s' with
      | [] => [c]
      | c' :: s'' =>
          if json.is_high_surrogate c && json.is_low_surrogate c'
          then (0x10000 + N.lor (N.shiftl (c - 0xd800) 10) (c' - 0xdc00))
                 :: join_surrogates s''
          else c :: join_surrogates s'
      end
  end.

(** The same on the key and on the value of every item. *)
Definition join_items (items : list (list N * list N)) : list (list N * list N) :=
  List.map (fun kv => (join_surrogates kv.1, join_surrogates kv.2)) items.

(** Every key and every value is a [str]. *)
Definition all_str (items : list (list N * list N)) : bool :=
  forallb (fun kv => is_str kv.1 && is_str kv.2) items.

(** ** The handlers as functions of the event

    What a handler returns or raises, read off the object its argument
    refers to ([None]: the reference is not in the store). *)





(** * Concrete inputs *)




(** The payload of [lambda_boto3_test.py] and [send_hello_batch.py], as the
    event the handler is called with. *)
Definition hello_event : list (list N * pyval) :=
  [(py "message", PyStr (py "hello world")); (py "correlationID", PyStr (py "123"))].

Definition hello_world : world :=
  World {[ 1%positive := ODict hello_event ]} [] ∅.

(** The empty event [{}]. *)
Definition empty_event_world : world :=
  World {[ 1%positive := ODict [] ]} [] ∅.

(** An event that has [correlationID] and no [message]. *)
Definition no_message_world : world :=
  World {[ 1%positive := ODict [(py "correlationID", PyStr (py "123"))] ]} [] ∅.

(** An event that has [message] and no [correlationID]. *)
Definition no_correlationID_world : world :=
  World {[ 1%positive := ODict [(py "message", PyStr (py "hello world"))] ]} [] ∅.

(** A client whose [create_function] always answers that the function is
    there already, and one whose call fails for another reason. *)
Definition conflicting_client (cfg : function_config) : M pyval :=
  raise ResourceConflictException.

Definition unreachable_client (cfg : function_config) : M pyval :=
  raise (OtherException (py "EndpointConnectionError")).

(** A process that has not allocated or printed anything, at a service that
    holds no function yet. *)
Definition fresh_world : world := World ∅ [] ∅.

(** A [str] of two code points, a high surrogate and then a low one: the
    value of the Python literal ['\ud83d\ude00']. *)
Definition split_emoji : list N := [0xd83d; 0xde00].





(** Stand-ins for what the script calls: a bundle of two bytes, a response
    whose payload is a stream object, an encoder and a decoder that give
    the text and the dict of the hello payload. *)
Definition fake_open_read (name : list N) : M (list N) := ret [80; 75].

Definition fake_invoke (name text : list N) : M pyval :=
  stream <- alloc (OList []) ;;
  build_map [(py "Payload", stream)].

Definition fake_read (stream : pyval) : M (list N) :=
  ret (json.dumps [(py "correlationID", py "123"); (py "message", py "hello world")]).

Definition fake_dumps (obj : pyval) : M (list N) := ret (json.dumps payload_items).

Definition fake_loads (text : list N) : M pyval :=
  build_map [(py "correlationID", PyStr (py "123")); (py "message", PyStr (py "hello world"))].

(** A client whose [invoke] raises the conflict exception, and a file that
    is not there. *)
Definition conflicting_invoke (name text : list N) : M pyval :=
  raise ResourceConflictException.

Definition missing_file (name : list N) : M (list N) :=
  raise (OtherException (py "FileNotFoundError")).


(** A flat dict whose strings need every kind of escape: a quote, a
    backslash, a line feed, a code point above the basic plane, a lone
    high surrogate, the empty string, a Latin-1 letter and DEL. *)
Definition escapes_items : list (list N * list N) :=
  [(py "a", [34; 92; 10; 0x1f600; 0xd83d]); (py "b", []); ([], [233; 0x7f])].

(** * Properties of the handlers *)

Section HandlerFacts.

Context {Ctx : Type}.
Implicit Types (context : Ctx) (w : world) (l : positive).
Implicit Types (d : list (list N * pyval)) (v : pyval) (k : list N).

Lemma subscript_found w l d k v :
  heap w !! l = Some (ODict d) -> dict_get k d = Some v ->
  subscript (PyRef l) k w = (Ok v, w).
Proof. intros Hl Hk. unfold subscript. by rewrite Hl, Hk. Qed.

Lemma subscript_missing w l d k :
  heap w !! l = Some (ODict d) -> dict_get k d = None ->
  subscript (PyRef l) k w = (Raise (KeyError k), w).
Proof. intros Hl Hk. unfold subscript. by rewrite Hl, Hk. Qed.

Lemma method_get_dict w l d k :
  heap w !! l = Some (ODict d) ->
  method_get (PyRef l) k w = (Ok (default PyNone (dict_get k d)), w).
Proof. intros Hl. unfold method_get. rewrite Hl. by destruct (dict_get k d). Qed.

(** A dict display with two different keys has exactly these two items. *)
Lemma dict_display_two {V} (k1 k2 : list N) (v1 v2 : V) :
  k1 <> k2 -> dict_display [(k1, v1); (k2, v2)] = [(k1, v1); (k2, v2)].
Proof. intros Hne. cbn. by rewrite decide_False. Qed.

Lemma keys_differ : py "correlationID" <> py "message".
Proof. discriminate. Qed.

(** The object just allocated is the one at the new address. *)
Lemma returned_dict_alloc w' (h : gmap positive pyobj) l d :
  heap w' = <[l := ODict d]> h -> returned_dict (Ok (PyRef l), w') = Some d.
Proof. intros Hh. unfold returned_dict. by rewrite Hh, lookup_insert_eq. Qed.

(** What the strict handler does on a dict holding both keys. *)
Lemma strict_handler_run context w l d cid msg :
  heap w !! l = Some (ODict d) ->
  dict_get (py "correlationID") d = Some cid ->
  dict_get (py "message") d = Some msg ->
  lambda_hello.handler (PyRef l) context w
  = (Ok (PyRef (fresh (dom (heap w)))),
     World (<[fresh (dom (heap w)) :=
               ODict [(py "correlationID", cid); (py "message", msg)]]> (heap w))
           (stdout w) (deployed w)).
Proof.
  intros Hl Hc Hm. unfold lambda_hello.handler, bind.
  rewrite (subscript_found _ _ _ _ _ Hl Hc), (subscript_found _ _ _ _ _ Hl Hm).
  unfold build_map, alloc. by rewrite (dict_display_two _ _ _ _ keys_differ).
Qed.

(** What the logging handler does on any dict. *)
Lemma logging_handler_run context w l d :
  heap w !! l = Some (ODict d) ->
  let line := Printed [PyStr (py "Lambda invoked! Event:"); PyRef l] (heap w) in
  let out := ODict [(py "correlationID", default PyNone (dict_get (py "correlationID") d));
                    (py "message", default PyNone (dict_get (py "message") d))] in
  send_hello_batch.handler (PyRef l) context w
  = (Ok (PyRef (fresh (dom (heap w)))),
     World (<[fresh (dom (heap w)) := out]> (heap w))
           (stdout w ++ [line]) (deployed w)).
Proof.
  intros Hl line out. unfold send_hello_batch.handler, bind, print.
  rewrite !(method_get_dict _ l d) by done.
  unfold build_map, alloc. cbn [heap stdout deployed].
  by rewrite (dict_display_two _ _ _ _ keys_differ).
Qed.

(** Both handlers, on a dict holding both keys. *)
Lemma handler_echo context w l d cid msg :
  heap w !! l = Some (ODict d) ->
  dict_get (py "correlationID") d = Some cid ->
  dict_get (py "message") d = Some msg ->
  returned_dict (lambda_hello.handler (PyRef l) context w)
  = Some [(py "correlationID", cid); (py "message", msg)]
  /\ returned_dict (send_hello_batch.handler (PyRef l) context w)
     = Some [(py "correlationID", cid); (py "message", msg)].
Proof.
  intros Hl Hc Hm. split.
  - rewrite (strict_handler_run context w l d cid msg Hl Hc Hm).
    by eapply returned_dict_alloc.
  - rewrite (logging_handler_run context w l d Hl), Hc, Hm.
    by eapply returned_dict_alloc.
Qed.

(** *** The store only grows

    Every primitive leaves the objects of the store as they are; [alloc]
    adds one at an address that was free. *)

Definition heap_kept {A} (m : M A) : Prop :=
  forall w, heap w ⊆ heap (m w).2.

Lemma heap_kept_bind {A B} (m : M A) (f : A -> M B) :
  heap_kept m -> (forall a, heap_kept (f a)) -> heap_kept (bind m f).
Proof.
  intros Hm Hf w. unfold bind. specialize (Hm w).
  destruct (m w) as [[a|e] w1]; cbn in *; [|done].
  etrans; [exact Hm|apply Hf].
Qed.

Lemma heap_kept_subscript v k : heap_kept (subscript v k).
Proof.
  intros w. unfold subscript.
  destruct v; try done. destruct (heap w !! l) as [[d|]|]; try done.
  by destruct (dict_get k d).
Qed.

Lemma heap_kept_method_get v k : heap_kept (method_get v k).
Proof.
  intros w. unfold method_get.
  destruct v; try done. destruct (heap w !! l) as [[d|]|]; try done.
  by destruct (dict_get k d).
Qed.

Lemma heap_kept_print args : heap_kept (print args).
Proof. by intros w. Qed.

Lemma fresh_unused w : heap w !! fresh (dom (heap w)) = None.
Proof. apply not_elem_of_dom, is_fresh. Qed.

Lemma heap_kept_alloc o : heap_kept (alloc o).
Proof. intros w. cbn. apply insert_subseteq, fresh_unused. Qed.

Lemma heap_kept_strict_handler v context : heap_kept (lambda_hello.handler v context).
Proof.
  unfold lambda_hello.handler.
  repeat (apply heap_kept_bind; [apply heap_kept_subscript|intros ?]).
  apply heap_kept_alloc.
Qed.

Lemma heap_kept_logging_handler v context :
  heap_kept (send_hello_batch.handler v context).
Proof.
  unfold send_hello_batch.handler.
  apply heap_kept_bind; [apply heap_kept_print|intros _].
  repeat (apply heap_kept_bind; [apply heap_kept_method_get|intros ?]).
  apply heap_kept_alloc.
Qed.

(** An address the store does not use is not used after a handler has
    raised: a handler allocates as its last step only. *)
Lemma strict_handler_event_cell l context w :
  heap (lambda_hello.handler (PyRef l) context w).2 !! l = heap w !! l.
Proof.
  destruct (heap w !! l) as [o|] eqn:Hl.
  - eapply lookup_weaken; [exact Hl|apply heap_kept_strict_handler].
  - unfold lambda_hello.handler, bind, subscript. by rewrite Hl.
Qed.

Lemma logging_handler_event_cell l context w :
  heap (send_hello_batch.handler (PyRef l) context w).2 !! l = heap w !! l.
Proof.
  destruct (heap w !! l) as [o|] eqn:Hl.
  - eapply lookup_weaken; [exact Hl|apply heap_kept_logging_handler].
  - unfold send_hello_batch.handler, bind, print, method_get. cbn. by rewrite Hl.
Qed.

(** *** Lookups after [dict_del] and [dict_set] *)

Lemma dict_get_del {V} (k k' : list N) (d : list (list N * V)) :
  dict_get k' (dict_del k d) = if decide (k = k') then None else dict_get k' d.
Proof.
  induction d as [|[k0 v0] d IH]; cbn; [by case_decide|].
  repeat (case_decide; cbn; subst); congruence.
Qed.

Lemma dict_get_set {V} (k k' : list N) (v : V) (d : list (list N * V)) :
  dict_get k' (dict_set k v d) = if decide (k = k') then Some v else dict_get k' d.
Proof.
  induction d as [|[k0 v0] d IH]; cbn; [done|].
  repeat (case_decide; cbn; subst); congruence.
Qed.

(** *** The handlers as functions of the event *)



(** What a handler returns is a reference to an object that was not there
    before. *)
Lemma strict_handler_result_new context v w w' x :
  lambda_hello.handler v context w = (Ok x, w') ->
  exists r, x = PyRef r /\ heap w !! r = None.
Proof.
  unfold lambda_hello.handler, bind, build_map, alloc.
  destruct (subscript v (py "correlationID") w) as [[cid|e] w1] eqn:H1; [|done].
  assert (w1 = w) as ->.
  { revert H1. unfold subscript. destruct v; try done.
    destruct (heap w !! l) as [[d|]|]; try done.
    destruct (dict_get _ d); by intros [= ]. }
  destruct (subscript v (py "message") w) as [[msg|e] w2] eqn:H2; [|done].
  assert (w2 = w) as ->.
  { revert H2. unfold subscript. destruct v; try done.
    destruct (heap w !! l) as [[d|]|]; try done.
    destruct (dict_get _ d); by intros [= ]. }
  intros [= <- <-]. eexists. split; [done|apply fresh_unused].
Qed.

Lemma logging_handler_result_new context v w w' x :
  send_hello_batch.handler v context w = (Ok x, w') ->
  exists r, x = PyRef r /\ heap w !! r = None.
Proof.
  unfold send_hello_batch.handler, bind, build_map, alloc, print.
  set (w0 := World _ _ _).
  assert (Hget : forall k y w1, method_get v k w0 = (Ok y, w1) -> w1 = w0).
  { intros k y w1. unfold method_get. destruct v; try done.
    destruct (heap w0 !! l) as [[d|]|]; try done.
    destruct (dict_get _ d); by intros [= ]. }
  destruct (method_get v (py "correlationID") w0) as [[cid|e] w1] eqn:H1; [|done].
  apply Hget in H1 as ->.
  destruct (method_get v (py "message") w0) as [[msg|e] w2] eqn:H2; [|done].
  apply Hget in H2 as ->.
  intros [= <- <-]. eexists. split; [done|]. apply (fresh_unused w0).
Qed.

End HandlerFacts.

(** Loading [send_hello_batch.py] prints one line, [123 , hello world],
    and leaves the payload as a new dict. *)
Lemma module_body_runs (w : world) :
  let l := fresh (dom (heap w)) in
  let h := <[l := ODict [(py "message", PyStr (py "hello world"));
                         (py "correlationID", PyStr (py "123"))]]> (heap w) in
  send_hello_batch.module_body w
  = (Ok (PyRef l),
     World h
       (stdout w ++ [Printed [PyStr (py "123"); PyStr (py ","); PyStr (py "hello world")] h])
       (deployed w)).
Proof.
  intros l h. unfold send_hello_batch.module_body, bind, build_map, alloc.
  change (dict_display _)
    with [(py "message", PyStr (py "hello world")); (py "correlationID", PyStr (py "123"))].
  fold l. fold h. set (w1 := World h (stdout w) (deployed w)).
  assert (Hl : heap w1 !! l = Some (ODict [(py "message", PyStr (py "hello world"));
                                           (py "correlationID", PyStr (py "123"))]))
    by apply lookup_insert_eq.
  by rewrite (subscript_found w1 l _ (py "correlationID") _ Hl eq_refl),
             (subscript_found w1 l _ (py "message") _ Hl eq_refl).
Qed.



(** C2: the strict handler of [lambda_hello.py] raises [KeyError] on the
    empty event [{}], and on every event dict that lacks [correlationID] or
    [message] it raises [KeyError] for one of the two keys, a key the event
    does not hold; nothing is allocated or printed before. *)
Theorem strict_handler_raises_KeyError_on_missing_key :
  forall (Ctx : Type) (context : Ctx) (w : world) (l : positive),
    (heap w !! l = Some (ODict []) ->
     exists k, lambda_hello.handler (PyRef l) context w = (Raise (KeyError k), w))
    /\ (forall d : list (list N * pyval),
         heap w !! l = Some (ODict d) ->
         dict_get (py "correlationID") d = None \/ dict_get (py "message") d = None ->
         exists k,
           (k = py "correlationID" \/ k = py "message")
           /\ dict_get k d = None
           /\ lambda_hello.handler (PyRef l) context w = (Raise (KeyError k), w)).
Proof.
  intros Ctx context w l.
  assert (Hgen : forall d : list (list N * pyval),
             heap w !! l = Some (ODict d) ->
             dict_get (py "correlationID") d = None \/ dict_get (py "message") d = None ->
             exists k,
               (k = py "correlationID" \/ k = py "message")
               /\ dict_get k d = None
               /\ lambda_hello.handler (PyRef l) context w = (Raise (KeyError k), w)).
  { intros d Hl Hmiss. unfold lambda_hello.handler, bind.
    destruct (dict_get (py "correlationID") d) as [cid|] eqn:Hc.
    - destruct Hmiss as [Hmiss|Hm]; [discriminate|].
      exists (py "message"). split; [by right|]. split; [done|].
      by rewrite (subscript_found _ _ _ _ _ Hl Hc), (subscript_missing _ _ _ _ Hl Hm).
    - exists (py "correlationID"). split; [by left|]. split; [done|].
      by rewrite (subscript_missing _ _ _ _ Hl Hc). }
  split; [|exact Hgen].
  intros Hl. destruct (Hgen [] Hl) as (k & _ & _ & Hrun); [by left|]. by exists k.
Qed.

Lemma strict_handler_raises_KeyError_on_missing_key_witness :
  (exists k, lambda_hello.handler (PyRef 1) tt empty_event_world
             = (Raise (KeyError k), empty_event_world))
  /\ (exists k,
        (k = py "correlationID" \/ k = py "message")
        /\ dict_get k [(py "correlationID", PyStr (py "123"))] = None
        /\ lambda_hello.handler (PyRef 1) tt no_message_world
           = (Raise (KeyError k), no_message_world)).
Proof.
  split.
  - apply (strict_handler_raises_KeyError_on_missing_key unit tt empty_event_world 1%positive).
    reflexivity.
  - apply (strict_handler_raises_KeyError_on_missing_key unit tt no_message_world 1%positive).
    + reflexivity.
    + right. reflexivity.
Defined.



(** C5: called with the event
    [{"message": "hello world", "correlationID": "123"}], the handler returns
    exactly [{"correlationID": "123", "message": "hello world"}]; so does
    the logging variant. *)
Theorem hello_world_end_to_end :
  forall (Ctx : Type) (context : Ctx) (w : world) (l : positive),
    heap w !! l = Some (ODict hello_event) ->
    returned_dict (lambda_hello.handler (PyRef l) context w)
    = Some [(py "correlationID", PyStr (py "123"));
            (py "message", PyStr (py "hello world"))]
    /\ returned_dict (send_hello_batch.handler (PyRef l) context w)
       = Some [(py "correlationID", PyStr (py "123"));
               (py "message", PyStr (py "hello world"))].
Proof.
  intros Ctx context w l Hl.
  exact (handler_echo context w l hello_event _ _ Hl eq_refl eq_refl).
Qed.

Lemma hello_world_end_to_end_witness :
  returned_dict (lambda_hello.handler (PyRef 1) tt hello_world)
  = Some [(py "correlationID", PyStr (py "123"));
          (py "message", PyStr (py "hello world"))]
  /\ returned_dict (send_hello_batch.handler (PyRef 1) tt hello_world)
     = Some [(py "correlationID", PyStr (py "123"));
             (py "message", PyStr (py "hello world"))].
Proof.
  apply (hello_world_end_to_end unit tt hello_world 1%positive). reflexivity.
Defined.

(** C10: the strict handler looks [correlationID] up first.  On every event
    dict without [correlationID], with or without [message], it raises
    [KeyError('correlationID')]; on every event dict with [correlationID]
    and without [message] it raises [KeyError('message')]. *)
Theorem strict_handler_looks_up_correlationID_first :
  forall (Ctx : Type) (context : Ctx) (w : world) (l : positive)
         (d : list (list N * pyval)),
    heap w !! l = Some (ODict d) ->
    (dict_get (py "correlationID") d = None ->
     lambda_hello.handler (PyRef l) context w
     = (Raise (KeyError (py "correlationID")), w))
    /\ (is_Some (dict_get (py "correlationID") d) ->
        dict_get (py "message") d = None ->
        lambda_hello.handler (PyRef l) context w
        = (Raise (KeyError (py "message")), w)).
Proof.
  intros Ctx context w l d Hl. unfold lambda_hello.handler, bind. split.
  - intros Hc. by rewrite (subscript_missing _ _ _ _ Hl Hc).
  - intros [cid Hc] Hm.
    by rewrite (subscript_found _ _ _ _ _ Hl Hc), (subscript_missing _ _ _ _ Hl Hm).
Qed.

Lemma strict_handler_looks_up_correlationID_first_witness :
  lambda_hello.handler (PyRef 1) tt empty_event_world
  = (Raise (KeyError (py "correlationID")), empty_event_world)
  /\ lambda_hello.handler (PyRef 1) tt no_correlationID_world
     = (Raise (KeyError (py "correlationID")), no_correlationID_world)
  /\ lambda_hello.handler (PyRef 1) tt no_message_world
     = (Raise (KeyError (py "message")), no_message_world).
Proof.
  split; [|split].
  - apply (strict_handler_looks_up_correlationID_first unit tt empty_event_world 1%positive []);
      reflexivity.
  - apply (strict_handler_looks_up_correlationID_first unit tt no_correlationID_world
             1%positive [(py "message", PyStr (py "hello world"))]);
      reflexivity.
  - apply (strict_handler_looks_up_correlationID_first unit tt no_message_world
             1%positive [(py "correlationID", PyStr (py "123"))]).
    + reflexivity.
    + eexists. reflexivity.
    + reflexivity.
Defined.



(** C8: neither handler changes its input.  Every object of the store a
    handler is called in, the event among them, is the same object after
    the call, whether the call returned or raised; what a handler returns is
    a reference to a new object.  The strict handler prints nothing, the
    logging handler prints its one line, and the deployed functions are not
    touched. *)
Theorem handlers_do_not_mutate_the_event :
  forall (Ctx : Type) (context : Ctx) (event : pyval) (l : positive) (w : world),
    let strict := fun ev => lambda_hello.handler ev context w in
    let logging := fun ev => send_hello_batch.handler ev context w in
    (heap w ⊆ heap (strict event).2
     /\ stdout (strict event).2 = stdout w
     /\ deployed (strict event).2 = deployed w)
    /\ (heap w ⊆ heap (logging event).2
        /\ stdout (logging event).2
           = stdout w ++ [Printed [PyStr (py "Lambda invoked! Event:"); event] (heap w)]
        /\ deployed (logging event).2 = deployed w)
    /\ (heap (strict (PyRef l)).2 !! l = heap w !! l
        /\ heap (logging (PyRef l)).2 !! l = heap w !! l)
    /\ (forall (x : pyval) (w' : world),
          strict event = (Ok x, w') \/ logging event = (Ok x, w') ->
          exists r : positive, x = PyRef r /\ heap w !! r = None).
Proof.
  intros Ctx context event l w strict logging. subst strict logging. cbn beta.
  split; [|split; [|split]].
  - split; [apply heap_kept_strict_handler|].
    unfold lambda_hello.handler, bind, subscript, build_map, alloc.
    destruct event as [| | | | |l0]; try done.
    destruct (heap w !! l0) as [[d|]|] eqn:Hl; try done.
    destruct (dict_get (py "correlationID") d); [|done].
    rewrite Hl. by destruct (dict_get (py "message") d).
  - split; [apply heap_kept_logging_handler|].
    unfold send_hello_batch.handler, bind, print, method_get, build_map, alloc.
    cbn [heap stdout deployed].
    destruct event as [| | | | |l0]; try done.
    destruct (heap w !! l0) as [[d|]|] eqn:Hl; try done.
    destruct (dict_get (py "correlationID") d);
      cbn [heap]; rewrite Hl; by destruct (dict_get (py "message") d).
  - split; [apply strict_handler_event_cell|apply logging_handler_event_cell].
  - intros x w' [Hrun|Hrun].
    + by eapply strict_handler_result_new.
    + by eapply logging_handler_result_new.
Qed.

(** C9: the logging handler does not tell a key that is absent from a key
    that is mapped to [None].  For every event dict [d], every key [k]
    ([correlationID] and [message] among them) and every store, the call on
    [d] without [k] and the call on [d] with [k] set to [None] both return,
    and return the same reference to equal dicts. *)
Theorem logging_handler_absent_key_is_None_key :
  forall (Ctx : Type) (context : Ctx) (h : gmap positive pyobj)
         (out : list printed) (fns : gmap (list N) function_config)
         (l : positive) (d : list (list N * pyval)) (k : list N),
    let absent := World (<[l := ODict (dict_del k d)]> h) out fns in
    let none := World (<[l := ODict (dict_set k PyNone d)]> h) out fns in
    (send_hello_batch.handler (PyRef l) context absent).1
    = (send_hello_batch.handler (PyRef l) context none).1
    /\ returned_dict (send_hello_batch.handler (PyRef l) context absent)
       = returned_dict (send_hello_batch.handler (PyRef l) context none)
    /\ is_Some (returned_dict (send_hello_batch.handler (PyRef l) context absent)).
Proof.
  intros Ctx context h out fns l d k absent none.
  assert (Ha : heap absent !! l = Some (ODict (dict_del k d)))
    by apply lookup_insert_eq.
  assert (Hn : heap none !! l = Some (ODict (dict_set k PyNone d)))
    by apply lookup_insert_eq.
  rewrite (logging_handler_run context absent l _ Ha).
  rewrite (logging_handler_run context none l _ Hn).
  assert (Hsame : forall k' : list N,
             default PyNone (dict_get k' (dict_del k d))
             = default PyNone (dict_get k' (dict_set k PyNone d))).
  { intros k'. rewrite dict_get_del, dict_get_set. by case_decide. }
  assert (Hdom : dom (heap absent) = dom (heap none)).
  { subst absent none. cbn. by rewrite !dom_insert_L. }
  rewrite !Hsame, Hdom. split; [done|].
  erewrite !returned_dict_alloc by reflexivity. split; [done|]. by eexists.
Qed.

(** * Properties of the invoker *)

Section InvokerFacts.
Import lambda_boto3_test.

Variable code_bytes : list N.

Definition already_exists_line (h : gmap positive pyobj) : printed :=
  Printed [PyStr (py "Lambda helloLambda already exists, skipping creation")] h.

(** A conflict is caught: one line is printed and the step returns. *)
Lemma ensure_conflict_caught (create : function_config -> M pyval) (w w' : world) :
  create (hello_config code_bytes) w = (Raise ResourceConflictException, w') ->
  ensure_function_exists create code_bytes w
  = (Ok tt, World (heap w') (stdout w' ++ [already_exists_line (heap w')]) (deployed w')).
Proof.
  intros Hrun. unfold ensure_function_exists, try_except, bind. by rewrite Hrun.
Qed.

(** Any other exception goes through. *)
Lemma ensure_other_propagates (create : function_config -> M pyval) (w w' : world)
      (e : exn) :
  create (hello_config code_bytes) w = (Raise e, w') ->
  e <> ResourceConflictException ->
  ensure_function_exists create code_bytes w = (Raise e, w').
Proof.
  intros Hrun Hne. unfold ensure_function_exists, try_except, bind. rewrite Hrun.
  by destruct e.
Qed.

(** A successful creation returns with nothing printed. *)
Lemma ensure_created (create : function_config -> M pyval) (w w' : world) (v : pyval) :
  create (hello_config code_bytes) w = (Ok v, w') ->
  ensure_function_exists create code_bytes w = (Ok tt, w').
Proof.
  intros Hrun. unfold ensure_function_exists, try_except, bind, ret. by rewrite Hrun.
Qed.

(** Against the service: the step returns from every state, and leaves
    [helloLambda] deployed. *)
Lemma ensure_on_service (w : world) :
  exists w1,
    ensure_function_exists service_create_function code_bytes w = (Ok tt, w1)
    /\ is_Some (deployed w1 !! py "helloLambda")
    /\ heap w1 = heap w
    /\ (deployed w !! py "helloLambda" = None ->
        w1 = World (heap w) (stdout w)
               (<[py "helloLambda" := hello_config code_bytes]> (deployed w)))
    /\ (is_Some (deployed w !! py "helloLambda") ->
        w1 = World (heap w) (stdout w ++ [already_exists_line (heap w)]) (deployed w)).
Proof.
  destruct (deployed w !! py "helloLambda") as [cfg|] eqn:Hdep.
  - eexists. split.
    + apply ensure_conflict_caught. unfold service_create_function.
      change (FunctionName (hello_config code_bytes)) with (py "helloLambda").
      by rewrite Hdep.
    + cbn [heap stdout deployed]. rewrite Hdep. by repeat split.
  - eexists. split.
    + eapply ensure_created. unfold service_create_function.
      change (FunctionName (hello_config code_bytes)) with (py "helloLambda").
      by rewrite Hdep.
    + cbn [heap stdout deployed].
      change (FunctionName (hello_config code_bytes)) with (py "helloLambda").
      rewrite lookup_insert_eq. by repeat split.
Qed.

End InvokerFacts.

(** C4: "ensure function exists" (lines 20-29 of [lambda_boto3_test.py]) is
    idempotent.  Whatever the client: when [create_function] raises
    [ResourceConflictException] the exception is caught, the message is
    printed and the step returns; when it raises any other exception, that
    exception leaves the step.  Against a service that answers a creation
    with success or with the conflict signal, the step returns from every
    state, so running it a second time with the same arguments returns as
    well, prints the message, and changes neither the store nor the
    deployed functions. *)
Theorem ensure_function_exists_is_idempotent :
  forall code_bytes : list N,
    let ensure := fun create => lambda_boto3_test.ensure_function_exists create code_bytes in
    let config := lambda_boto3_test.hello_config code_bytes in
    (forall (create : function_config -> M pyval) (w w' : world),
        create config w = (Raise ResourceConflictException, w') ->
        ensure create w
        = (Ok tt, World (heap w')
                    (stdout w' ++ [Printed [PyStr (py "Lambda helloLambda already exists, skipping creation")] (heap w')])
                    (deployed w')))
    /\ (forall (create : function_config -> M pyval) (w w' : world) (e : exn),
          create config w = (Raise e, w') ->
          e <> ResourceConflictException ->
          ensure create w = (Raise e, w'))
    /\ (forall w : world,
          exists w1 : world,
            ensure lambda_boto3_test.service_create_function w = (Ok tt, w1)
            /\ ensure lambda_boto3_test.service_create_function w1
               = (Ok tt, World (heap w1)
                           (stdout w1 ++ [Printed [PyStr (py "Lambda helloLambda already exists, skipping creation")] (heap w1)])
                           (deployed w1))).
Proof.
  intros code_bytes ensure config. split; [|split].
  - intros create w w' Hrun. by apply ensure_conflict_caught.
  - intros create w w' e Hrun Hne. by apply ensure_other_propagates.
  - intros w. destruct (ensure_on_service code_bytes w) as (w1 & Hrun1 & Hdep & _).
    exists w1. split; [exact Hrun1|].
    destruct (ensure_on_service code_bytes w1) as (w2 & Hrun2 & _ & _ & _ & Hsecond).
    subst ensure. cbn beta. rewrite Hrun2. f_equal. by apply Hsecond.
Qed.

Lemma ensure_function_exists_is_idempotent_witness :
  lambda_boto3_test.ensure_function_exists conflicting_client [] fresh_world
  = (Ok tt, World ∅ [Printed [PyStr (py "Lambda helloLambda already exists, skipping creation")] ∅] ∅)
  /\ lambda_boto3_test.ensure_function_exists unreachable_client [] fresh_world
     = (Raise (OtherException (py "EndpointConnectionError")), fresh_world)
  /\ exists w1 : world,
       lambda_boto3_test.ensure_function_exists
         lambda_boto3_test.service_create_function [] fresh_world = (Ok tt, w1)
       /\ lambda_boto3_test.ensure_function_exists
            lambda_boto3_test.service_create_function [] w1
          = (Ok tt, World (heap w1)
                      (stdout w1 ++ [Printed [PyStr (py "Lambda helloLambda already exists, skipping creation")] (heap w1)])
                      (deployed w1)).
Proof.
  pose proof (ensure_function_exists_is_idempotent []) as (Hcaught & Hother & Htwice).
  split; [|split].
  - apply (Hcaught conflicting_client fresh_world fresh_world). reflexivity.
  - apply (Hother unreachable_client fresh_world fresh_world); [reflexivity|discriminate].
  - apply (Htwice fresh_world).
Defined.

(** * The JSON round trip *)

Module json_facts.
Import json.

(** Boolean tests on [N] as propositions. *)
Ltac n_bool :=
  repeat match goal with
    | H : (_ && _) = true |- _ => apply andb_prop in H; destruct H
    | H : (_ && _) = false |- _ => apply andb_false_iff in H; destruct H
    | H : negb _ = true |- _ => apply negb_true_iff in H
    | H : (_ =? _) = true |- _ => apply N.eqb_eq in H
    | H : (_ =? _) = false |- _ => apply N.eqb_neq in H
    | H : (_ <=? _) = true |- _ => apply N.leb_le in H
    | H : (_ <=? _) = false |- _ => apply N.leb_gt in H
    | H : (_ <? _) = true |- _ => apply N.ltb_lt in H
    | H : (_ <? _) = false |- _ => apply N.ltb_ge in H
    end.

(** Decide the tests in the goal that the hypotheses settle. *)
Ltac n_decide :=
  repeat match goal with
    | |- context [?a =? ?b] =>
        first [ rewrite (proj2 (N.eqb_eq a b)) by lia
              | rewrite (proj2 (N.eqb_neq a b)) by lia ]
    | |- context [?a <=? ?b] =>
        first [ rewrite (proj2 (N.leb_le a b)) by lia
              | rewrite (proj2 (N.leb_gt a b)) by lia ]
    | |- context [?a <? ?b] =>
        first [ rewrite (proj2 (N.ltb_lt a b)) by lia
              | rewrite (proj2 (N.ltb_ge a b)) by lia ]
    end.

Lemma hex_value_digit (n : N) : n < 16 -> hex_value (hex_digit n) = Some n.
Proof.
  intros Hn. unfold hex_value, hex_digit.
  destruct (n <? 10) eqn:H10; n_bool.
  - n_decide. cbn. f_equal. lia.
  - n_decide. cbn. f_equal. lia.
Qed.

Lemma decode_u_escape (n : N) :
  n < 0x10000 ->
  exists h1 h2 h3 h4,
    u_escape n = [92; 117; h1; h2; h3; h4]
    /\ decode_uXXXX h1 h2 h3 h4 = Some n.
Proof.
  intros Hn. unfold u_escape. do 4 eexists. split; [reflexivity|].
  unfold decode_uXXXX.
  rewrite !hex_value_digit by (apply N.mod_lt; lia).
  f_equal.
  pose proof (N.Div0.div_mod n 16) as E0.
  pose proof (N.Div0.div_mod (n / 16) 16) as E1.
  pose proof (N.Div0.div_mod (n / 256) 16) as E2.
  replace (n / 16 / 16) with (n / 256) in E1 by (by rewrite N.Div0.div_div).
  replace (n / 256 / 16) with (n / 4096) in E2 by (by rewrite N.Div0.div_div).
  assert (n / 4096 < 16) by (apply N.Div0.div_lt_upper_bound; lia).
  rewrite (N.mod_small (n / 4096) 16) by done.
  lia.
Qed.

(** Bits that do not overlap: or is addition. *)
Lemma lor_shifted (a b k : N) :
  b < 2 ^ k -> N.lor (a * 2 ^ k) b = a * 2 ^ k + b.
Proof.
  intros Hb.
  assert (Hland : N.land (a * 2 ^ k) b = 0).
  { apply N.bits_inj. intros i. rewrite N.land_spec, N.bits_0.
    destruct (N.lt_ge_cases i k) as [Hlt|Hge].
    - by rewrite N.mul_pow2_bits_low.
    - rewrite <- (N.mod_small b (2 ^ k)) by done.
      rewrite N.mod_pow2_bits_high by done. apply andb_false_r. }
  by rewrite N.add_nocarry_lxor, N.lxor_lor.
Qed.

(** The surrogate pair the encoder writes for a code point above the basic
    plane, and the code point the decoder joins it into. *)
Lemma surrogate_pair_arith (c : N) :
  0x10000 <= c -> c < 0x110000 ->
  let n := c - 0x10000 in
  let s1 := N.lor 0xd800 (N.land (N.shiftr n 10) 0x3ff) in
  let s2 := N.lor 0xdc00 (N.land n 0x3ff) in
  s1 = 0xd800 + n / 1024
  /\ s2 = 0xdc00 + n mod 1024
  /\ n / 1024 < 1024
  /\ n mod 1024 < 1024
  /\ 0x10000 + N.lor (N.shiftl (s1 - 0xd800) 10) (s2 - 0xdc00) = c.
Proof.
  intros Hlo Hhi n s1 s2.
  assert (Hn : n < 1024 * 1024) by (subst n; lia).
  assert (Hq : n / 1024 < 1024) by (apply N.Div0.div_lt_upper_bound; lia).
  assert (Hr : n mod 1024 < 1024) by (apply N.mod_lt; lia).
  assert (E1 : s1 = 0xd800 + n / 1024).
  { subst s1. change 0x3ff with (N.ones 10).
    rewrite N.land_ones, N.shiftr_div_pow2. change (2 ^ 10) with 1024.
    rewrite (N.mod_small (n / 1024)) by done.
    change 0xd800 with (54 * 2 ^ 10). apply lor_shifted. by change (2 ^ 10) with 1024. }
  assert (E2 : s2 = 0xdc00 + n mod 1024).
  { subst s2. change 0x3ff with (N.ones 10).
    rewrite N.land_ones. change (2 ^ 10) with 1024.
    change 0xdc00 with (55 * 2 ^ 10). apply lor_shifted. by change (2 ^ 10) with 1024. }
  repeat split; try done.
  rewrite E1, E2.
  rewrite (N.add_comm 0xd800), (N.add_comm 0xdc00), !N.add_sub.
  rewrite N.shiftl_mul_pow2, lor_shifted by (by change (2 ^ 10) with 1024).
  change (2 ^ 10) with 1024.
  pose proof (N.Div0.div_mod n 1024). subst n. lia.
Qed.

(** *** What the encoder writes for one code point

    [token c t]: the text [t] is one unit of an encoded string and the
    decoder reads it as the code point [c]. *)
Inductive token (c : N) : list N -> Prop :=
| token_short (esc : N) :
    esc <> 117 -> backslash esc = Some c -> token c [92; esc]
| token_plain :
    c <> 34 -> c <> 92 -> 32 <= c -> token c [c]
| token_u (h1 h2 h3 h4 : N) :
    decode_uXXXX h1 h2 h3 h4 = Some c -> c < 0x10000 ->
    token c [92; 117; h1; h2; h3; h4]
| token_pair (h1 h2 h3 h4 g1 g2 g3 g4 hi lo : N) :
    decode_uXXXX h1 h2 h3 h4 = Some hi ->
    decode_uXXXX g1 g2 g3 g4 = Some lo ->
    is_high_surrogate hi = true ->
    is_low_surrogate lo = true ->
    0x10000 + N.lor (N.shiftl (hi - 0xd800) 10) (lo - 0xdc00) = c ->
    0x10000 <= c ->
    token c [92; 117; h1; h2; h3; h4; 92; 117; g1; g2; g3; g4].

Lemma escape_char_token (c : N) : c < 0x110000 -> token c (escape_char c).
Proof.
  intros Hc. unfold escape_char.
  repeat match goal with
    | |- token _ (if ?a =? ?b then _ else _) =>
        destruct (N.eqb_spec a b) as [->|?];
        [by apply token_short|]
    end.
  destruct ((32 <=? c) && (c <=? 126)) eqn:Hprint.
  { n_bool. by apply token_plain. }
  clear Hprint.
  destruct (c <? 0x10000) eqn:Hbmp; n_bool.
  { destruct (decode_u_escape c) as (h1 & h2 & h3 & h4 & -> & Hd); [done|].
    by apply token_u. }
  destruct (surrogate_pair_arith c) as (E1 & E2 & Hq & Hr & Hjoin); [done..|].
  cbv zeta.
  set (s1 := N.lor _ _) in *. set (s2 := N.lor 56320 _) in *.
  set (q := (c - 65536) / 1024) in *. set (r := (c - 65536) mod 1024) in *.
  clearbody s1 s2 q r.
  destruct (decode_u_escape s1) as (h1 & h2 & h3 & h4 & -> & Hd1); [lia|].
  destruct (decode_u_escape s2) as (g1 & g2 & g3 & g4 & -> & Hd2); [lia|].
  eapply (token_pair c _ _ _ _ _ _ _ _ s1 s2); try done.
  - unfold is_high_surrogate. by n_decide.
  - unfold is_low_surrogate. by n_decide.
Qed.

(** *** What the decoder reads *)

(** After an escaped high surrogate the decoder looks at the next escape:
    [lone_ok rest] says that it finds no low surrogate there (and no
    malformed [\u] escape), so the high surrogate stays as it is. *)
Definition lone_ok (rest : list N) : Prop :=
  match rest with
  | b :: u :: s4 =>
      if (b =? 92) && (u =? 117) then
        match s4 with
        | g1 :: g2 :: g3 :: g4 :: _ =>
            match decode_uXXXX g1 g2 g3 g4 with
            | Some uni2 => is_low_surrogate uni2 = false
            | None => False
            end
        | _ => False
        end
      else True
  | _ => True
  end.

Lemma high_not_low (c : N) : is_high_surrogate c = true -> is_low_surrogate c = false.
Proof. unfold is_high_surrogate, is_low_surrogate. intros H. n_bool. by n_decide. Qed.

Lemma lone_ok_quote (rest : list N) : lone_ok (34 :: rest).
Proof. by destruct rest. Qed.

Lemma lone_ok_token (c : N) (t rest : list N) :
  token c t -> is_low_surrogate c = false -> lone_ok (t ++ rest).
Proof.
  intros Ht Hlow. destruct Ht as [esc Hesc _| Hq Hb _|h1 h2 h3 h4 Hd _|
                                  h1 h2 h3 h4 g1 g2 g3 g4 hi lo Hd _ Hhi _ _ _]; cbn.
  - by rewrite (proj2 (N.eqb_neq esc 117)).
  - destruct rest; [done|]. by rewrite (proj2 (N.eqb_neq c 92)).
  - by rewrite Hd.
  - rewrite Hd. by apply high_not_low.
Qed.

Lemma scan_u_lone (h1 h2 h3 h4 uni : N) (s3 : list N) :
  decode_uXXXX h1 h2 h3 h4 = Some uni ->
  (is_high_surrogate uni = true -> lone_ok s3) ->
  py_scanstring (92 :: 117 :: h1 :: h2 :: h3 :: h4 :: s3)
  = append_char uni (py_scanstring s3).
Proof.
  intros Hd Hlone.
  change (py_scanstring (92 :: 117 :: h1 :: h2 :: h3 :: h4 :: s3))
    with (match decode_uXXXX h1 h2 h3 h4 with
          | None => None
          | Some uni =>
              if is_high_surrogate uni then
                match s3 with
                | b :: u :: s4 =>
                    if (b =? 92) && (u =? 117) then
                      match s4 with
                      | g1 :: g2 :: g3 :: g4 :: s5 =>
                          match decode_uXXXX g1 g2 g3 g4 with
                          | None => None
                          | Some uni2 =>
                              if is_low_surrogate uni2 then
                                append_char
                                  (0x10000 + N.lor (N.shiftl (uni - 0xd800) 10)
                                                   (uni2 - 0xdc00))
                                  (py_scanstring s5)
                              else append_char uni (py_scanstring s3)
                          end
                      | _ => None
                      end
                    else append_char uni (py_scanstring s3)
                | _ => append_char uni (py_scanstring s3)
                end
              else append_char uni (py_scanstring s3)
          end).
  rewrite Hd. destruct (is_high_surrogate uni); [|done].
  specialize (Hlone eq_refl). unfold lone_ok in Hlone.
  destruct s3 as [|b [|u s4]]; try done.
  destruct ((b =? 92) && (u =? 117)); [|done].
  destruct s4 as [|g1 [|g2 [|g3 [|g4 s5]]]]; try done.
  destruct (decode_uXXXX g1 g2 g3 g4); [|done]. by rewrite Hlone.
Qed.

Lemma scan_u_pair (h1 h2 h3 h4 g1 g2 g3 g4 hi lo : N) (s5 : list N) :
  decode_uXXXX h1 h2 h3 h4 = Some hi ->
  decode_uXXXX g1 g2 g3 g4 = Some lo ->
  is_high_surrogate hi = true ->
  is_low_surrogate lo = true ->
  py_scanstring (92 :: 117 :: h1 :: h2 :: h3 :: h4 :: 92 :: 117 :: g1 :: g2 :: g3 :: g4 :: s5)
  = append_char (0x10000 + N.lor (N.shiftl (hi - 0xd800) 10) (lo - 0xdc00))
                (py_scanstring s5).
Proof.
  intros Hd1 Hd2 Hhi Hlo.
  change (py_scanstring (92 :: 117 :: h1 :: h2 :: h3 :: h4 :: 92 :: 117 :: g1 :: g2 :: g3 :: g4 :: s5))
    with (match decode_uXXXX h1 h2 h3 h4 with
          | None => None
          | Some uni =>
              if is_high_surrogate uni then
                match decode_uXXXX g1 g2 g3 g4 with
                | None => None
                | Some uni2 =>
                    if is_low_surrogate uni2 then
                      append_char
                        (0x10000 + N.lor (N.shiftl (uni - 0xd800) 10) (uni2 - 0xdc00))
                        (py_scanstring s5)
                    else append_char uni
                           (py_scanstring (92 :: 117 :: g1 :: g2 :: g3 :: g4 :: s5))
                end
              else append_char uni
                     (py_scanstring (92 :: 117 :: g1 :: g2 :: g3 :: g4 :: s5))
          end).
  by rewrite Hd1, Hhi, Hd2, Hlo.
Qed.

(** The decoder reads one unit of encoded text as its code point. *)
Lemma scan_token (c : N) (t rest : list N) :
  token c t ->
  (is_high_surrogate c = true -> lone_ok rest) ->
  py_scanstring (t ++ rest) = append_char c (py_scanstring rest).
Proof.
  intros Ht Hlone. destruct Ht as [esc Hesc Hb| Hq Hb Hge|h1 h2 h3 h4 Hd _|
                                   h1 h2 h3 h4 g1 g2 g3 g4 hi lo Hd1 Hd2 Hhi Hlo Hjoin _].
  - cbn [app]. change (py_scanstring (92 :: esc :: rest))
      with (if esc =? 117 then
              match rest with
              | h1 :: h2 :: h3 :: h4 :: s3 => py_scanstring (92 :: 117 :: h1 :: h2 :: h3 :: h4 :: s3)
              | _ => None
              end
            else match backslash esc with
                 | Some ch => append_char ch (py_scanstring rest)
                 | None => None
                 end).
    by rewrite (proj2 (N.eqb_neq esc 117)), Hb.
  - cbn [app]. change (py_scanstring (c :: rest))
      with (if c =? 34 then Some ([], rest)
            else if c =? 92 then py_scanstring (92 :: rest)
            else if c <? 32 then None
            else append_char c (py_scanstring rest)).
    by n_decide.
  - by apply scan_u_lone.
  - rewrite <- Hjoin. by apply scan_u_pair.
Qed.

(** Decoding undoes encoding, for a [str] that holds no surrogate pair. *)
Lemma scan_escape_all (s rest : list N) :
  is_str s = true -> no_surrogate_pair s = true ->
  py_scanstring (escape_all s ++ 34 :: rest) = Some (s, rest).
Proof.
  induction s as [|c s IH]; intros Hstr Hpair; [done|].
  change (is_str (c :: s)) with ((c <? 0x110000) && is_str s) in Hstr.
  apply andb_prop in Hstr as [Hc Hstr]. n_bool.
  assert (Htok : token c (escape_char c)) by by apply escape_char_token.
  change (escape_all (c :: s)) with (escape_char c ++ escape_all s).
  rewrite <- app_assoc, (scan_token c); [| done |].
  - rewrite IH; [done|done|]. destruct s; [done|].
    cbn [no_surrogate_pair] in Hpair. by apply andb_prop in Hpair as [_ ?].
  - intros Hhigh. destruct s as [|c' s']; [apply lone_ok_quote|].
    change (escape_all (c' :: s')) with (escape_char c' ++ escape_all s').
    rewrite <- app_assoc. apply (lone_ok_token c').
    + apply escape_char_token.
      change (is_str (c' :: s')) with ((c' <? 0x110000) && is_str s') in Hstr.
      apply andb_prop in Hstr as [Hc' _]. by n_bool.
    + cbn [no_surrogate_pair] in Hpair. apply andb_prop in Hpair as [Hpair _].
      rewrite Hhigh in Hpair. by destruct (is_low_surrogate c').
Qed.

(** The strings of a flat dict that the round trip needs: every key and
    value is a [str] without a surrogate pair. *)
Definition strings_ok (items : list (list N * list N)) : Prop :=
  Forall (fun kv => (is_str kv.1 = true /\ no_surrogate_pair kv.1 = true)
                    /\ (is_str kv.2 = true /\ no_surrogate_pair kv.2 = true)) items.

(** The text after the first member's closing quote: the other members,
    each after [", "], and ["}"]. *)
Fixpoint members_tail (items : list (list N * list N)) (rest : list N) : list N :=
  match items with
  | [] => 125 :: rest
  | kv :: items' =>
      44 :: 32 :: 34 :: escape_all kv.1 ++ 34 :: 58 :: 32 :: 34 ::
        escape_all kv.2 ++ 34 :: members_tail items' rest
  end.

Lemma encode_items_tail (kv : list N * list N) (items : list (list N * list N))
      (rest : list N) :
  encode_items (kv :: items) ++ 125 :: rest
  = 34 :: escape_all kv.1 ++ 34 :: 58 :: 32 :: 34 ::
      escape_all kv.2 ++ 34 :: members_tail items rest.
Proof.
  revert kv. induction items as [|kv' items IH]; intros kv.
  - cbn. rewrite <- !app_assoc. cbn. by rewrite <- !app_assoc.
  - change (encode_items (kv :: kv' :: items))
      with (encode_item kv ++ [44; 32] ++ encode_items (kv' :: items)).
    rewrite <- !app_assoc, IH. cbn. rewrite <- !app_assoc. cbn.
    by rewrite <- !app_assoc.
Qed.

Lemma parse_members_encode (items : list (list N * list N)) :
  forall (k v rest : list N) (fuel : nat),
    (List.length items < fuel)%nat ->
    strings_ok ((k, v) :: items) ->
    parse_members fuel
      (escape_all k ++ 34 :: 58 :: 32 :: 34 :: escape_all v ++ 34 :: members_tail items rest)
    = Some ((k, v) :: items, rest).
Proof.
  induction items as [|[k' v'] items IH]; intros k v rest fuel Hfuel Hok;
    (destruct fuel as [|fuel]; [cbn in Hfuel; lia|]);
    apply Forall_cons in Hok as [[[Hk1 Hk2] [Hv1 Hv2]] Hok];
    cbn [parse_members fst snd] in *;
    rewrite (scan_escape_all k) by done;
    change (skip_ws (58 :: 32 :: 34 :: ?s)) with (58 :: 32 :: 34 :: s);
    change (58 =? 58) with true; cbn match;
    change (skip_ws (32 :: 34 :: ?s)) with (34 :: s);
    change (34 =? 34) with true; cbn match;
    rewrite (scan_escape_all v) by done.
  - reflexivity.
  - cbn [members_tail fst snd].
    change (skip_ws (44 :: ?s)) with (44 :: s).
    change (44 =? 125) with false. change (44 =? 44) with true. cbn match.
    change (skip_ws (32 :: 34 :: ?s)) with (34 :: s).
    change (34 =? 34) with true. cbn match.
    rewrite (IH k' v' rest fuel); [done| |done].
    cbn in Hfuel. lia.
Qed.

(** The text has room for its members: the fuel [JSONObject] gives is
    enough. *)
Lemma encode_items_length (items : list (list N * list N)) (rest : list N) :
  (List.length items <= List.length (members_tail items rest))%nat.
Proof.
  induction items as [|kv items IH]; cbn; [lia|].
  rewrite !length_app. cbn. rewrite !length_app. cbn. lia.
Qed.

(** A dict display of items with different keys holds the items in their
    order. *)
Lemma dict_set_new {V} (k : list N) (v : V) (d : list (list N * V)) :
  k ∉ d.*1 -> dict_set k v d = d ++ [(k, v)].
Proof.
  induction d as [|[k0 v0] d IH]; intros Hk; cbn; [done|].
  cbn in Hk. apply not_elem_of_cons in Hk as [Hne Hk].
  rewrite decide_False by done. by rewrite IH.
Qed.

Lemma dict_display_NoDup {V} (items : list (list N * V)) :
  NoDup items.*1 -> dict_display items = items.
Proof.
  unfold dict_display.
  assert (Hgen : forall acc : list (list N * V),
             NoDup (acc ++ items).*1 ->
             fold_left (fun d kv => dict_set kv.1 kv.2 d) items acc = acc ++ items).
  { induction items as [|[k v] items IH]; intros acc Hnd; cbn.
    - by rewrite app_nil_r.
    - rewrite dict_set_new.
      + rewrite IH; rewrite <- app_assoc; [done|done].
      + rewrite fmap_app in Hnd. apply NoDup_app in Hnd as (_ & Hdisj & _).
        intros Hin. apply (Hdisj k Hin). cbn. left. }
  intros Hnd. by apply (Hgen []).
Qed.

(** *** The fuel of [parse_members] never decides

    Reading a string uses up at least its closing quote, so the members of
    a text are fewer than its characters: any fuel from the length of the
    text on gives the same result. *)

Lemma append_char_Some (c : N) (r : option (list N * list N)) (k rest : list N) :
  append_char c r = Some (k, rest) ->
  exists k', r = Some (k', rest).
Proof. destruct r as [[k' rest']|]; [|done]. intros [= _ <-]. by exists k'. Qed.

Lemma py_scanstring_shorter (n : nat) :
  forall (s k rest : list N),
    (List.length s <= n)%nat ->
    py_scanstring s = Some (k, rest) ->
    (List.length rest < List.length s)%nat.
Proof.
  induction n as [|n IH]; intros s k rest Hlen Hscan.
  { destruct s; [done|cbn in Hlen; lia]. }
  assert (Hrec : forall (c : N) (s' : list N),
             (List.length s' <= n)%nat ->
             append_char c (py_scanstring s') = Some (k, rest) ->
             (List.length rest < List.length s')%nat).
  { intros c s' Hs' Happ. apply append_char_Some in Happ as [k' Hk'].
    by apply (IH s' k'). }
  destruct s as [|c s1]; [done|]. cbn [List.length] in *.
  cbn [py_scanstring] in Hscan.
  destruct (c =? 34). { injection Hscan as _ <-. lia. }
  destruct (c =? 92); cycle 1.
  { destruct (c <? 32); [done|]. apply Hrec in Hscan; lia. }
  destruct s1 as [|esc s2]; [done|]. cbn [List.length] in *.
  destruct (esc =? 117); cycle 1.
  { destruct (backslash esc); [|done]. apply Hrec in Hscan; lia. }
  destruct s2 as [|h1 [|h2 [|h3 [|h4 s3]]]]; try done. cbn [List.length] in *.
  destruct (decode_uXXXX h1 h2 h3 h4) as [uni|]; [|done].
  destruct (is_high_surrogate uni); cycle 1.
  { apply Hrec in Hscan; lia. }
  destruct s3 as [|b [|u s4]].
  - apply Hrec in Hscan; cbn in *; lia.
  - apply Hrec in Hscan; cbn in *; lia.
  - destruct ((b =? 92) && (u =? 117)); cycle 1.
    { apply Hrec in Hscan; cbn [List.length] in *; lia. }
    destruct s4 as [|g1 [|g2 [|g3 [|g4 s5]]]]; try done.
    destruct (decode_uXXXX g1 g2 g3 g4) as [uni2|]; [|done].
    destruct (is_low_surrogate uni2); apply Hrec in Hscan; cbn [List.length] in *; lia.
Qed.

Lemma skip_ws_length (s : list N) :
  (List.length (skip_ws s) <= List.length s)%nat.
Proof.
  induction s as [|c s IH]; cbn; [done|]. destruct (is_ws c); cbn; lia.
Qed.

Lemma parse_members_fuel (fuel1 : nat) :
  forall (fuel2 : nat) (s : list N),
    (List.length s <= fuel1)%nat -> (List.length s <= fuel2)%nat ->
    parse_members fuel1 s = parse_members fuel2 s.
Proof.
  induction fuel1 as [|fuel1 IH]; intros fuel2 s H1 H2.
  { destruct s; [|cbn in H1; lia]. by destruct fuel2. }
  destruct fuel2 as [|fuel2].
  { destruct s; [done|cbn in H2; lia]. }
  cbn [parse_members].
  destruct (py_scanstring s) as [[key s1]|] eqn:Hkey; [|done].
  apply (py_scanstring_shorter _ _ _ _ (le_n _)) in Hkey.
  pose proof (skip_ws_length s1) as Hw1.
  destruct (skip_ws s1) as [|c s2]; [done|]. cbn [List.length] in Hw1.
  destruct (c =? 58); [|done].
  pose proof (skip_ws_length s2) as Hw2.
  destruct (skip_ws s2) as [|q s3]; [done|]. cbn [List.length] in Hw2.
  destruct (q =? 34); [|done].
  destruct (py_scanstring s3) as [[value s4]|] eqn:Hvalue; [|done].
  apply (py_scanstring_shorter _ _ _ _ (le_n _)) in Hvalue.
  pose proof (skip_ws_length s4) as Hw4.
  destruct (skip_ws s4) as [|n s5]; [done|]. cbn [List.length] in Hw4.
  destruct (n =? 125); [done|]. destruct (n =? 44); [|done].
  pose proof (skip_ws_length s5) as Hw5.
  destruct (skip_ws s5) as [|q' s6]; [done|]. cbn [List.length] in Hw5.
  destruct (q' =? 34); [|done].
  rewrite (IH fuel2 s6); [done|lia|lia].
Qed.

(** The encoder writes ASCII only ([ensure_ascii=True]): the text is its
    own UTF-8 encoding, byte for code point. *)
Lemma hex_digit_ascii (n : N) : n < 16 -> hex_digit n < 128.
Proof. intros Hn. unfold hex_digit. destruct (n <? 10); lia. Qed.

Lemma u_escape_ascii (n : N) : Forall (fun c => c < 128) (u_escape n).
Proof.
  unfold u_escape.
  repeat (apply Forall_cons; split; [first [lia|apply hex_digit_ascii, N.mod_lt; lia]|]).
  apply Forall_nil_2.
Qed.

Lemma escape_char_ascii (c : N) : Forall (fun c => c < 128) (escape_char c).
Proof.
  unfold escape_char.
  repeat match goal with
    | |- Forall _ (if ?a =? ?b then _ else _) =>
        destruct (a =? b); [by repeat constructor|]
    end.
  destruct ((32 <=? c) && (c <=? 126)) eqn:Hprint.
  { n_bool. apply Forall_singleton. lia. }
  destruct (c <? 0x10000); [apply u_escape_ascii|].
  cbv zeta. apply Forall_app. split; apply u_escape_ascii.
Qed.

Lemma py_encode_basestring_ascii_ascii (s : list N) :
  Forall (fun c => c < 128) (py_encode_basestring_ascii s).
Proof.
  unfold py_encode_basestring_ascii, escape_all.
  apply Forall_cons. split; [lia|]. apply Forall_app. split.
  - induction s as [|c s IH]; cbn; [constructor|].
    apply Forall_app. split; [apply escape_char_ascii|exact IH].
  - by repeat constructor.
Qed.

Lemma dumps_ascii (items : list (list N * list N)) :
  Forall (fun c => c < 128) (dumps items).
Proof.
  unfold dumps. apply Forall_cons. split; [lia|]. apply Forall_app. split.
  - induction items as [|kv items IH]; [constructor|].
    assert (Hitem : Forall (fun c => c < 128) (encode_item kv)).
    { unfold encode_item. rewrite !Forall_app.
      repeat split; try apply py_encode_basestring_ascii_ascii.
      by repeat constructor. }
    destruct items as [|kv' items]; [exact Hitem|].
    change (encode_items (kv :: kv' :: items))
      with (encode_item kv ++ [44; 32] ++ encode_items (kv' :: items)).
    rewrite !Forall_app. repeat split; [exact Hitem| |exact IH].
    by repeat constructor.
  - by repeat constructor.
Qed.

(** The round trip on any flat dict of strings. *)
Lemma loads_dumps (items : list (list N * list N)) :
  NoDup items.*1 -> strings_ok items ->
  loads (dumps items) = Some items.
Proof.
  intros Hnd Hok. unfold loads, dumps.
  change (skip_ws (123 :: ?s)) with (123 :: s).
  change (123 =? 123) with true. cbn match.
  destruct items as [|[k v] items]; [done|].
  rewrite encode_items_tail. unfold JSONObject. cbn [fst snd].
  change (skip_ws (34 :: ?s)) with (34 :: s).
  change (34 =? 125) with false. change (34 =? 34) with true. cbn match.
  rewrite (parse_members_encode items k v []); [| |done].
  - by rewrite dict_display_NoDup.
  - rewrite !length_app. cbn. rewrite !length_app. cbn.
    pose proof (encode_items_length items []). lia.
Qed.
End json_facts.

(** C6, with the condition on the strings that it needs: for every
    invocation payload (a flat dict with the fields [message] and
    [correlationID], in either order) whose two strings hold no high
    surrogate directly followed by a low surrogate,
    [json.loads(json.dumps(payload))] is a dict equal to the payload (and
    with its items in the same order). *)
Theorem payload_json_round_trip :
  forall message correlationID : list N,
    is_str message = true -> no_surrogate_pair message = true ->
    is_str correlationID = true -> no_surrogate_pair correlationID = true ->
    json.loads (json.dumps [(py "message", message); (py "correlationID", correlationID)])
    = Some [(py "message", message); (py "correlationID", correlationID)]
    /\ json.loads (json.dumps [(py "correlationID", correlationID); (py "message", message)])
       = Some [(py "correlationID", correlationID); (py "message", message)].
Proof.
  intros message correlationID Hm1 Hm2 Hc1 Hc2.
  split; apply json_facts.loads_dumps.
  - apply NoDup_cons. split; [|apply NoDup_singleton].
    rewrite list_elem_of_singleton. discriminate.
  - by repeat constructor.
  - apply NoDup_cons. split; [|apply NoDup_singleton].
    rewrite list_elem_of_singleton. discriminate.
  - by repeat constructor.
Qed.

Lemma payload_json_round_trip_witness :
  json.loads (json.dumps payload_items) = Some payload_items
  /\ json.loads (json.dumps [(py "correlationID", py "123"); (py "message", py "hello world")])
     = Some [(py "correlationID", py "123"); (py "message", py "hello world")].
Proof.
  apply (payload_json_round_trip (py "hello world") (py "123")); reflexivity.
Defined.

(** C6 does not hold for every [str]: the payload whose [message] is the
    two code points U+D83D U+DE00 is a dict of strings; the encoder writes
    the message as two escapes, and the decoder reads them back as the one
    code point U+1F600. *)
Lemma surrogate_pair_payload_does_not_round_trip :
  is_str split_emoji = true
  /\ json.py_encode_basestring_ascii split_emoji = [34] ++ py "\ud83d\ude00" ++ [34]
  /\ json.loads (json.dumps [(py "message", split_emoji); (py "correlationID", py "123")])
     = Some [(py "message", [0x1f600]); (py "correlationID", py "123")]
  /\ [(py "message", [0x1f600]); (py "correlationID", py "123")]
     <> [(py "message", split_emoji); (py "correlationID", py "123")].
Proof. repeat split; try reflexivity. discriminate. Qed.

(** * Further properties of the handlers *)

Section MoreHandlerFacts.

Context {Ctx : Type}.
Implicit Types (context : Ctx) (w : world) (l : positive).
Implicit Types (d : list (list N * pyval)) (v : pyval) (k : list N).



End MoreHandlerFacts.









(** X5: loading [send_hello_batch.py].  In every state the statements of
    the module run without raising: they build the payload as a new dict,
    leave every object of the store as it was, and print one line, whose
    arguments are ['123'], [','] and ['hello world']. *)
Theorem loading_send_hello_batch :
  forall w : world,
    exists (payload : pyval) (w' : world),
      send_hello_batch.module_body w = (Ok payload, w')
      /\ returned_dict (Ok payload, w')
         = Some [(py "message", PyStr (py "hello world"));
                 (py "correlationID", PyStr (py "123"))]
      /\ heap w ⊆ heap w'
      /\ stdout w'
         = stdout w ++ [Printed [PyStr (py "123"); PyStr (py ","); PyStr (py "hello world")]
                                (heap w')]
      /\ deployed w' = deployed w.
Proof.
  intros w. eexists _, _. split; [apply module_body_runs|].
  cbn [heap stdout deployed]. split; [|split; [|done]].
  - unfold returned_dict. cbn [heap]. by rewrite lookup_insert_eq.
  - apply insert_subseteq, not_elem_of_dom, is_fresh.
Qed.

(** * Further properties of the invoker *)

(** X6: "ensure function exists" never replaces what is deployed.  Against
    a service that answers a creation with success or with the conflict
    signal, running the step with one bundle and then with another returns
    both times; no function that was deployed is removed or changed, and
    the second run changes nothing: a function created by the first run
    still holds the first bundle. *)
Theorem ensure_function_exists_never_replaces :
  forall (code1 code2 : list N) (w : world),
    exists w1 w2 : world,
      lambda_boto3_test.ensure_function_exists
        lambda_boto3_test.service_create_function code1 w = (Ok tt, w1)
      /\ lambda_boto3_test.ensure_function_exists
           lambda_boto3_test.service_create_function code2 w1 = (Ok tt, w2)
      /\ deployed w ⊆ deployed w1
      /\ deployed w2 = deployed w1
      /\ (deployed w !! py "helloLambda" = None ->
          deployed w2 !! py "helloLambda" = Some (lambda_boto3_test.hello_config code1)).
Proof.
  intros code1 code2 w.
  destruct (ensure_on_service code1 w) as (w1 & Hrun1 & Hdep1 & _ & Hnew & Hold).
  destruct (ensure_on_service code2 w1) as (w2 & Hrun2 & _ & _ & _ & Hold2).
  exists w1, w2. split; [done|]. split; [done|].
  specialize (Hold2 Hdep1).
  assert (Hsame : deployed w2 = deployed w1) by by rewrite Hold2.
  split; [|split; [done|]].
  - destruct (deployed w !! py "helloLambda") as [cfg|] eqn:Hw.
    + rewrite (Hold (mk_is_Some _ _ eq_refl)). done.
    + rewrite (Hnew eq_refl). cbn [deployed]. by apply insert_subseteq.
  - intros Hw. rewrite Hsame, (Hnew Hw). cbn [deployed]. apply lookup_insert_eq.
Qed.

Section ScriptFacts.
Import lambda_boto3_test_script.

Variable open_read : list N -> M (list N).
Variable create_function : function_config -> M pyval.
Variable invoke : list N -> list N -> M pyval.
Variable read : pyval -> M (list N).
Variable dumps : pyval -> M (list N).
Variable loads : list N -> M pyval.

(** A subscript reads: whatever it gives, the state is the one it found. *)
Lemma subscript_state (v : pyval) (k : list N) (w w' : world) (r : result pyval) :
  subscript v k w = (r, w') -> w' = w.
Proof.
  unfold subscript. destruct v as [| | | | |l]; try by intros [= _ <-].
  destruct (heap w !! l) as [[d|]|]; try by intros [= _ <-].
  destruct (dict_get k d); by intros [= _ <-].
Qed.

(** The steps of [invoke_hello], when it returns. *)
Lemma invoke_hello_returned (w w' : world) :
  invoke_hello invoke read dumps loads w = (Ok tt, w') ->
  let payload := PyRef (fresh (dom (heap w))) in
  let w0 := World (<[fresh (dom (heap w)) :=
                      ODict [(py "message", PyStr (py "hello world"));
                             (py "correlationID", PyStr (py "123"))]]> (heap w))
                  (stdout w) (deployed w) in
  exists (text : list N) (w1 : world) (resp : pyval) (w2 : world)
         (stream : pyval) (body : list N) (w3 : world) (data : pyval) (w4 : world),
    dumps payload w0 = (Ok text, w1)
    /\ invoke (py "helloLambda") text w1 = (Ok resp, w2)
    /\ subscript resp (py "Payload") w2 = (Ok stream, w2)
    /\ read stream w2 = (Ok body, w3)
    /\ loads body w3 = (Ok data, w4)
    /\ w' = World (heap w4)
                  (stdout w4 ++ [Printed [PyStr (py "Lambda response:"); data] (heap w4)])
                  (deployed w4).
Proof.
  intros Hrun payload w0. revert Hrun.
  unfold invoke_hello, bind, build_map, alloc.
  change (dict_display _)
    with [(py "message", PyStr (py "hello world")); (py "correlationID", PyStr (py "123"))].
  fold payload. fold w0.
  destruct (dumps payload w0) as [[text|e] w1] eqn:Hd; [|done].
  destruct (invoke (py "helloLambda") text w1) as [[resp|e] w2] eqn:Hi; [|done].
  destruct (subscript resp (py "Payload") w2) as [[stream|e] w2'] eqn:Hs; [|done].
  pose proof (subscript_state _ _ _ _ _ Hs) as ->.
  destruct (read stream w2) as [[body|e] w3] eqn:Hr; [|done].
  destruct (loads body w3) as [[data|e] w4] eqn:Hl; [|done].
  unfold print. intros [= <-].
  by exists text, w1, resp, w2, stream, body, w3, data, w4.
Qed.

End ScriptFacts.

(** X7: the script hides no failure but the conflict.  Whatever the file
    system, the client and the JSON codec are: if the script runs to its
    end, then the bundle was read, [create_function] returned or raised
    [ResourceConflictException] (and then the message was printed),
    [json.dumps], [invoke], [resp['Payload']], its [read] and [json.loads]
    all returned, and the last thing the script did was to print
    ["Lambda response:"] with the decoded data. *)
Theorem script_returns_only_if_every_call_returned :
  forall (open_read : list N -> M (list N))
         (create_function : function_config -> M pyval)
         (invoke : list N -> list N -> M pyval)
         (read : pyval -> M (list N))
         (dumps : pyval -> M (list N))
         (loads : list N -> M pyval)
         (w w' : world),
    lambda_boto3_test_script.main open_read create_function invoke read dumps loads w
    = (Ok tt, w') ->
    exists (code_bytes : list N) (w1 w2 : world),
      open_read (py "lambda_hello.zip") w = (Ok code_bytes, w1)
      /\ ((exists response : pyval,
              create_function (lambda_boto3_test.hello_config code_bytes) w1
              = (Ok response, w2))
          \/ (exists w1' : world,
                create_function (lambda_boto3_test.hello_config code_bytes) w1
                = (Raise ResourceConflictException, w1')
                /\ w2 = World (heap w1')
                          (stdout w1' ++ [Printed [PyStr (py "Lambda helloLambda already exists, skipping creation")] (heap w1')])
                          (deployed w1')))
      /\ exists (text : list N) (w3 : world) (resp : pyval) (w4 : world)
                (stream : pyval) (body : list N) (w5 : world) (data : pyval) (w6 : world),
           dumps (PyRef (fresh (dom (heap w2))))
                 (World (<[fresh (dom (heap w2)) :=
                            ODict [(py "message", PyStr (py "hello world"));
                                   (py "correlationID", PyStr (py "123"))]]> (heap w2))
                        (stdout w2) (deployed w2))
           = (Ok text, w3)
           /\ invoke (py "helloLambda") text w3 = (Ok resp, w4)
           /\ subscript resp (py "Payload") w4 = (Ok stream, w4)
           /\ read stream w4 = (Ok body, w5)
           /\ loads body w5 = (Ok data, w6)
           /\ w' = World (heap w6)
                     (stdout w6 ++ [Printed [PyStr (py "Lambda response:"); data] (heap w6)])
                     (deployed w6).
Proof.
  intros open_read create_function invoke read dumps loads w w'.
  unfold lambda_boto3_test_script.main. unfold bind at 1.
  destruct (open_read (py "lambda_hello.zip") w) as [[code_bytes|e] w1] eqn:Hopen; [|done].
  unfold bind at 1.
  destruct (lambda_boto3_test.ensure_function_exists create_function code_bytes w1)
    as [[[]|e] w2] eqn:Hensure; [|done].
  intros Hrest. exists code_bytes, w1, w2. split; [done|]. split.
  - revert Hensure.
    unfold lambda_boto3_test.ensure_function_exists, try_except, bind, ret, print.
    destruct (create_function (lambda_boto3_test.hello_config code_bytes) w1)
      as [[response|e] w1'] eqn:Hcreate.
    + intros [= <-]. left. by exists response.
    + destruct e; try done. intros [= <-]. right. by exists w1'.
  - exact (invoke_hello_returned invoke read dumps loads w2 w' Hrest).
Qed.

Lemma script_returns_only_if_every_call_returned_witness :
  exists (code_bytes : list N) (w1 w2 : world),
    fake_open_read (py "lambda_hello.zip") fresh_world = (Ok code_bytes, w1)
    /\ ((exists response : pyval,
            lambda_boto3_test.service_create_function
              (lambda_boto3_test.hello_config code_bytes) w1
            = (Ok response, w2))
        \/ (exists w1' : world,
              lambda_boto3_test.service_create_function
                (lambda_boto3_test.hello_config code_bytes) w1
              = (Raise ResourceConflictException, w1')
              /\ w2 = World (heap w1')
                        (stdout w1' ++ [Printed [PyStr (py "Lambda helloLambda already exists, skipping creation")] (heap w1')])
                        (deployed w1')))
    /\ exists (text : list N) (w3 : world) (resp : pyval) (w4 : world)
              (stream : pyval) (body : list N) (w5 : world) (data : pyval) (w6 : world),
         fake_dumps (PyRef (fresh (dom (heap w2))))
               (World (<[fresh (dom (heap w2)) :=
                          ODict [(py "message", PyStr (py "hello world"));
                                 (py "correlationID", PyStr (py "123"))]]> (heap w2))
                      (stdout w2) (deployed w2))
         = (Ok text, w3)
         /\ fake_invoke (py "helloLambda") text w3 = (Ok resp, w4)
         /\ subscript resp (py "Payload") w4 = (Ok stream, w4)
         /\ fake_read stream w4 = (Ok body, w5)
         /\ fake_loads body w5 = (Ok data, w6)
         /\ (lambda_boto3_test_script.main fake_open_read
               lambda_boto3_test.service_create_function
               fake_invoke fake_read fake_dumps fake_loads fresh_world).2
            = World (heap w6)
                (stdout w6 ++ [Printed [PyStr (py "Lambda response:"); data] (heap w6)])
                (deployed w6).
Proof.
  apply (script_returns_only_if_every_call_returned
           fake_open_read lambda_boto3_test.service_create_function
           fake_invoke fake_read fake_dumps fake_loads fresh_world).
  vm_compute. reflexivity.
Defined.

(** X8: what fails in the script leaves the script.  Whatever the file
    system, the client and the JSON codec are: an exception of the read of
    the bundle ends the script at once; so does an exception of
    [create_function] other than [ResourceConflictException]; and once the
    [try] statement is over, an exception of [invoke] ends the script
    whatever it is: the [except] clause does not reach it, a
    [ResourceConflictException] raised there is not caught. *)
Theorem script_failures_leave_the_script :
  forall (open_read : list N -> M (list N))
         (create_function : function_config -> M pyval)
         (invoke : list N -> list N -> M pyval)
         (read : pyval -> M (list N))
         (dumps : pyval -> M (list N))
         (loads : list N -> M pyval)
         (w : world),
    let main :=
      lambda_boto3_test_script.main open_read create_function invoke read dumps loads in
    (forall (e : exn) (w1 : world),
        open_read (py "lambda_hello.zip") w = (Raise e, w1) ->
        main w = (Raise e, w1))
    /\ (forall (code_bytes : list N) (w1 : world) (e : exn) (w2 : world),
          open_read (py "lambda_hello.zip") w = (Ok code_bytes, w1) ->
          create_function (lambda_boto3_test.hello_config code_bytes) w1 = (Raise e, w2) ->
          e <> ResourceConflictException ->
          main w = (Raise e, w2))
    /\ (forall (code_bytes : list N) (w1 w2 : world) (text : list N) (w3 : world)
               (e : exn) (w4 : world),
          open_read (py "lambda_hello.zip") w = (Ok code_bytes, w1) ->
          lambda_boto3_test.ensure_function_exists create_function code_bytes w1
          = (Ok tt, w2) ->
          dumps (PyRef (fresh (dom (heap w2))))
                (World (<[fresh (dom (heap w2)) :=
                           ODict [(py "message", PyStr (py "hello world"));
                                  (py "correlationID", PyStr (py "123"))]]> (heap w2))
                       (stdout w2) (deployed w2))
          = (Ok text, w3) ->
          invoke (py "helloLambda") text w3 = (Raise e, w4) ->
          main w = (Raise e, w4)).
Proof.
  intros open_read create_function invoke read dumps loads w main. subst main.
  unfold lambda_boto3_test_script.main. split; [|split].
  - intros e w1 Hopen. unfold bind at 1. by rewrite Hopen.
  - intros code_bytes w1 e w2 Hopen Hcreate Hne. unfold bind at 1. rewrite Hopen.
    unfold bind at 1.
    by rewrite (ensure_other_propagates code_bytes create_function w1 w2 e Hcreate Hne).
  - intros code_bytes w1 w2 text w3 e w4 Hopen Hensure Hdumps Hinvoke.
    unfold bind at 1. rewrite Hopen. unfold bind at 1. rewrite Hensure.
    unfold lambda_boto3_test_script.invoke_hello, bind, build_map, alloc.
    change (dict_display _)
      with [(py "message", PyStr (py "hello world")); (py "correlationID", PyStr (py "123"))].
    by rewrite Hdumps, Hinvoke.
Qed.

Lemma script_failures_leave_the_script_witness :
  lambda_boto3_test_script.main missing_file lambda_boto3_test.service_create_function
    fake_invoke fake_read fake_dumps fake_loads fresh_world
  = (Raise (OtherException (py "FileNotFoundError")), fresh_world)
  /\ lambda_boto3_test_script.main fake_open_read unreachable_client
       fake_invoke fake_read fake_dumps fake_loads fresh_world
     = (Raise (OtherException (py "EndpointConnectionError")), fresh_world)
  /\ (lambda_boto3_test_script.main fake_open_read lambda_boto3_test.service_create_function
        conflicting_invoke fake_read fake_dumps fake_loads fresh_world).1
     = Raise ResourceConflictException.
Proof.
  split; [|split].
  - apply (script_failures_leave_the_script missing_file
             lambda_boto3_test.service_create_function
             fake_invoke fake_read fake_dumps fake_loads fresh_world).
    reflexivity.
  - pose proof (script_failures_leave_the_script fake_open_read unreachable_client
                  fake_invoke fake_read fake_dumps fake_loads fresh_world)
      as (_ & Hcreate & _).
    apply (Hcreate [80; 75] fresh_world); [reflexivity|reflexivity|discriminate].
  - pose proof (script_failures_leave_the_script fake_open_read
                  lambda_boto3_test.service_create_function
                  conflicting_invoke fake_read fake_dumps fake_loads fresh_world)
      as (_ & _ & Hinvoke).
    erewrite Hinvoke; [reflexivity| reflexivity | reflexivity | reflexivity | reflexivity].
Defined.

(** * Further properties of the JSON codec *)

(** X9: the round trip of any flat dict of strings.  For every dict with
    [str] keys and [str] values, with any number of fields, whose strings
    hold no high surrogate directly followed by a low surrogate,
    [json.loads(json.dumps(d))] returns a dict with the same items in the
    same order; the empty dict comes back empty. *)
Theorem flat_dict_json_round_trip :
  forall items : list (list N * list N),
    NoDup items.*1 ->
    json_facts.strings_ok items ->
    json.loads (json.dumps items) = Some items.
Proof.
  intros items Hkeys Hok.
  destruct items as [|kv items]; [reflexivity|].
  by apply json_facts.loads_dumps.
Qed.

Lemma flat_dict_json_round_trip_witness :
  json.loads (json.dumps escapes_items) = Some escapes_items
  /\ json.loads (json.dumps []) = Some [].
Proof.
  split.
  - apply (flat_dict_json_round_trip escapes_items).
    + apply (bool_decide_unpack _). vm_compute. reflexivity.
    + unfold json_facts.strings_ok, escapes_items. repeat constructor.
  - apply (flat_dict_json_round_trip []).
    + constructor.
    + constructor.
Defined.

(** X10: the text on the wire is ASCII.  Whatever the strings of a flat
    dict are, every character [json.dumps] writes is below 128
    ([ensure_ascii] is on by default), so the UTF-8 encoding of the
    payload holds one byte for every character of the text. *)
Theorem wire_text_is_ascii :
  forall items : list (list N * list N),
    Forall (fun c => c < 128) (json.dumps items).
Proof. intros items. apply json_facts.dumps_ascii. Qed.

Module json_more_facts.
Import json json_facts.

(** A surrogate is written as one [\uXXXX] escape. *)
Lemma escape_char_surrogate (c : N) :
  0xd800 <= c -> c <= 0xdfff -> escape_char c = u_escape c.
Proof.
  intros Hlo Hhi. unfold escape_char. n_decide. cbn [andb].
  by n_decide.
Qed.

Lemma join_surrogates_cons2 (c c' : N) (s : list N) :
  join_surrogates (c :: c' :: s)
  = if is_high_surrogate c && is_low_surrogate c'
    then (0x10000 + N.lor (N.shiftl (c - 0xd800) 10) (c' - 0xdc00)) :: join_surrogates s
    else c :: join_surrogates (c' :: s).
Proof. reflexivity. Qed.

(** What the decoder reads from an encoded [str], surrogate pairs or not. *)
Lemma scan_escape_all_join (n : nat) :
  forall s rest : list N,
    (List.length s <= n)%nat ->
    is_str s = true ->
    py_scanstring (escape_all s ++ 34 :: rest) = Some (join_surrogates s, rest).
Proof.
  induction n as [|n IH]; intros s rest Hlen Hstr.
  { destruct s; [done|cbn in Hlen; lia]. }
  destruct s as [|c s]; [done|].
  change (is_str (c :: s)) with ((c <? 0x110000) && is_str s) in Hstr.
  apply andb_prop in Hstr as [Hc Hstr]. n_bool. cbn [List.length] in Hlen.
  assert (Htok : token c (escape_char c)) by by apply escape_char_token.
  change (escape_all (c :: s)) with (escape_char c ++ escape_all s).
  destruct s as [|c' s].
  { rewrite <- app_assoc, (scan_token c); [done|done|]. intros _. apply lone_ok_quote. }
  pose proof Hstr as Hcs.
  change (is_str (c' :: s)) with ((c' <? 0x110000) && is_str s) in Hstr.
  apply andb_prop in Hstr as [Hc' Hs]. n_bool.
  cbn [List.length] in Hlen.
  rewrite join_surrogates_cons2.
  destruct (is_high_surrogate c && is_low_surrogate c') eqn:Hpair.
  - apply andb_prop in Hpair as [Hhigh Hlow].
    pose proof Hhigh as Hh. pose proof Hlow as Hl.
    unfold is_high_surrogate in Hh. unfold is_low_surrogate in Hl. n_bool.
    change (escape_all (c' :: s)) with (escape_char c' ++ escape_all s).
    rewrite (escape_char_surrogate c), (escape_char_surrogate c') by lia.
    destruct (decode_u_escape c) as (h1 & h2 & h3 & h4 & -> & Hd1); [lia|].
    destruct (decode_u_escape c') as (g1 & g2 & g3 & g4 & -> & Hd2); [lia|].
    cbn [app]. rewrite (scan_u_pair _ _ _ _ _ _ _ _ c c') by done.
    rewrite IH; [done|lia|done].
  - rewrite <- app_assoc, (scan_token c); [|done|].
    + rewrite IH; [done|cbn [List.length]; lia|exact Hcs].
    + intros Hhigh. rewrite Hhigh in Hpair. cbn [andb] in Hpair.
      change (escape_all (c' :: s)) with (escape_char c' ++ escape_all s).
      rewrite <- app_assoc. apply (lone_ok_token c'); [|done].
      by apply escape_char_token.
Qed.

Lemma parse_members_encode_join (items : list (list N * list N)) :
  forall (k v rest : list N) (fuel : nat),
    (List.length items < fuel)%nat ->
    all_str ((k, v) :: items) = true ->
    parse_members fuel
      (escape_all k ++ 34 :: 58 :: 32 :: 34 :: escape_all v ++ 34 :: members_tail items rest)
    = Some (join_items ((k, v) :: items), rest).
Proof.
  induction items as [|[k' v'] items IH]; intros k v rest fuel Hfuel Hok;
    (destruct fuel as [|fuel]; [cbn in Hfuel; lia|]);
    change (all_str ((k, v) :: ?l)) with ((is_str k && is_str v) && all_str l) in Hok;
    apply andb_prop in Hok as [Hkv Hok]; apply andb_prop in Hkv as [Hk Hv];
    cbn [parse_members fst snd] in *;
    rewrite (scan_escape_all_join _ k _ (le_n _)) by done;
    change (skip_ws (58 :: 32 :: 34 :: ?s)) with (58 :: 32 :: 34 :: s);
    change (58 =? 58) with true; cbn match;
    change (skip_ws (32 :: 34 :: ?s)) with (34 :: s);
    change (34 =? 34) with true; cbn match;
    rewrite (scan_escape_all_join _ v _ (le_n _)) by done.
  - reflexivity.
  - cbn [members_tail fst snd].
    change (skip_ws (44 :: ?s)) with (44 :: s).
    change (44 =? 125) with false. change (44 =? 44) with true. cbn match.
    change (skip_ws (32 :: 34 :: ?s)) with (34 :: s).
    change (34 =? 34) with true. cbn match.
    rewrite (IH k' v' rest fuel); [done| |done].
    cbn in Hfuel. lia.
Qed.

Lemma loads_dumps_join (items : list (list N * list N)) :
  all_str items = true ->
  loads (dumps items) = Some (dict_display (join_items items)).
Proof.
  intros Hok. unfold loads, dumps.
  change (skip_ws (123 :: ?s)) with (123 :: s).
  change (123 =? 123) with true. cbn match.
  destruct items as [|[k v] items]; [done|].
  rewrite encode_items_tail. unfold JSONObject. cbn [fst snd].
  change (skip_ws (34 :: ?s)) with (34 :: s).
  change (34 =? 125) with false. change (34 =? 34) with true. cbn match.
  rewrite (parse_members_encode_join items k v []); [done| |done].
  rewrite !length_app. cbn. rewrite !length_app. cbn.
  pose proof (encode_items_length items []). lia.
Qed.


(** *** What has come back is stable *)

(** A joined pair is a code point above the basic plane. *)
Lemma joined_range (c c' : N) :
  is_high_surrogate c = true -> is_low_surrogate c' = true ->
  0x10000 <= 0x10000 + N.lor (N.shiftl (c - 0xd800) 10) (c' - 0xdc00)
  /\ 0x10000 + N.lor (N.shiftl (c - 0xd800) 10) (c' - 0xdc00) < 0x110000.
Proof.
  unfold is_high_surrogate, is_low_surrogate. intros Hh Hl. n_bool.
  rewrite N.shiftl_mul_pow2, lor_shifted by (change (2 ^ 10) with 1024; lia).
  change (2 ^ 10) with 1024. lia.
Qed.

Lemma above_plane_no_surrogate (j : N) :
  0x10000 <= j -> is_high_surrogate j = false /\ is_low_surrogate j = false.
Proof.
  intros Hj. unfold is_high_surrogate, is_low_surrogate. by n_decide.
Qed.

Lemma join_surrogates_is_str (n : nat) :
  forall s : list N,
    (List.length s <= n)%nat -> is_str s = true -> is_str (join_surrogates s) = true.
Proof.
  induction n as [|n IH]; intros s Hlen Hstr.
  { destruct s; [done|cbn in Hlen; lia]. }
  destruct s as [|c [|c' s]]; [done|done|].
  cbn [List.length] in Hlen. rewrite join_surrogates_cons2.
  pose proof Hstr as Hcs.
  change (is_str (c :: c' :: s)) with ((c <? 0x110000) && is_str (c' :: s)) in Hstr.
  apply andb_prop in Hstr as [Hc Htail].
  pose proof Htail as Htail'.
  change (is_str (c' :: s)) with ((c' <? 0x110000) && is_str s) in Htail'.
  apply andb_prop in Htail' as [Hc' Hs].
  destruct (is_high_surrogate c && is_low_surrogate c') eqn:Hpair.
  - apply andb_prop in Hpair as [Hh Hl].
    destruct (joined_range c c' Hh Hl) as [_ Hj].
    set (j := 0x10000 + _) in *.
    change (is_str (j :: ?t)) with ((j <? 0x110000) && is_str t).
    rewrite (proj2 (N.ltb_lt _ _) Hj). cbn [andb]. apply IH; [lia|done].
  - change (is_str (c :: ?t)) with ((c <? 0x110000) && is_str t).
    rewrite Hc. cbn [andb]. apply IH; [cbn [List.length]; lia|exact Htail].
Qed.

(** The first code point of a joined [str] is the first of the [str], or
    a pair joined: a low surrogate there was there before. *)
Lemma join_surrogates_head (c : N) (s : list N) :
  exists (x : N) (t : list N),
    join_surrogates (c :: s) = x :: t
    /\ (is_low_surrogate x = true -> x = c).
Proof.
  destruct s as [|c' s]; [by exists c, []|].
  rewrite join_surrogates_cons2.
  destruct (is_high_surrogate c && is_low_surrogate c') eqn:Hpair.
  - apply andb_prop in Hpair as [Hh Hl].
    destruct (joined_range c c' Hh Hl) as [Hj _].
    eexists _, _. split; [reflexivity|].
    intros Hlow. by rewrite (proj2 (above_plane_no_surrogate _ Hj)) in Hlow.
  - by eexists _, _.
Qed.

Lemma join_surrogates_no_pair (n : nat) :
  forall s : list N,
    (List.length s <= n)%nat -> no_surrogate_pair (join_surrogates s) = true.
Proof.
  induction n as [|n IH]; intros s Hlen.
  { destruct s; [done|cbn in Hlen; lia]. }
  destruct s as [|c [|c' s]]; [done|done|].
  cbn [List.length] in Hlen. rewrite join_surrogates_cons2.
  destruct (is_high_surrogate c && is_low_surrogate c') eqn:Hpair.
  - apply andb_prop in Hpair as [Hh Hl].
    destruct (joined_range c c' Hh Hl) as [Hj _].
    set (j := 0x10000 + _) in *.
    pose proof (IH s ltac:(lia)) as Hrest.
    destruct (join_surrogates s) as [|y t]; [done|].
    change (no_surrogate_pair (j :: y :: t))
      with (negb (is_high_surrogate j && is_low_surrogate y) && no_surrogate_pair (y :: t)).
    by rewrite (proj1 (above_plane_no_surrogate _ Hj)), Hrest.
  - pose proof (IH (c' :: s) ltac:(cbn [List.length]; lia)) as Hrest.
    destruct (join_surrogates_head c' s) as (x & t & Hjoin & Hlow).
    rewrite Hjoin in *.
    change (no_surrogate_pair (c :: x :: t))
      with (negb (is_high_surrogate c && is_low_surrogate x) && no_surrogate_pair (x :: t)).
    rewrite Hrest, andb_true_r. apply negb_true_iff.
    destruct (is_low_surrogate x) eqn:Hx; [|apply andb_false_r].
    rewrite (Hlow eq_refl) in Hx. rewrite Hx in Hpair. exact Hpair.
Qed.

(** Keys and items of a dict display. *)
Lemma dict_set_keys {V} (k : list N) (v : V) (d : list (list N * V)) :
  NoDup d.*1 -> NoDup (dict_set k v d).*1.
Proof.
  intros Hnd. destruct (decide (k ∈ d.*1)) as [Hin|Hout].
  - assert (Hsame : (dict_set k v d).*1 = d.*1); [|by rewrite Hsame].
    clear Hnd. induction d as [|[k0 v0] d IH]; [by apply elem_of_nil in Hin|].
    cbn in *. case_decide; cbn; [by subst|].
    apply elem_of_cons in Hin as [->|Hin]; [done|]. by rewrite IH.
  - rewrite dict_set_new by done. rewrite fmap_app. cbn.
    apply NoDup_app. split; [done|]. split; [|apply NoDup_singleton].
    intros x Hx Hx'. apply list_elem_of_singleton in Hx'. by subst.
Qed.

Lemma dict_display_keys {V} (items : list (list N * V)) :
  NoDup (dict_display items).*1.
Proof.
  unfold dict_display.
  assert (Hgen : forall acc : list (list N * V),
             NoDup acc.*1 ->
             NoDup (fold_left (fun d kv => dict_set kv.1 kv.2 d) items acc).*1).
  { induction items as [|kv items IH]; intros acc Hacc; [done|].
    cbn. apply IH. by apply dict_set_keys. }
  apply Hgen. constructor.
Qed.

Lemma dict_set_Forall {V} (P : list N * V -> Prop) (k : list N) (v : V)
      (d : list (list N * V)) :
  P (k, v) -> Forall P d -> Forall P (dict_set k v d).
Proof.
  intros Hkv Hd. induction d as [|[k0 v0] d IH]; cbn; [by repeat constructor|].
  apply Forall_cons in Hd as [H0 Hd].
  case_decide; (apply Forall_cons; split); auto.
Qed.

Lemma dict_display_Forall {V} (P : list N * V -> Prop) (items : list (list N * V)) :
  Forall P items -> Forall P (dict_display items).
Proof.
  unfold dict_display.
  assert (Hgen : forall acc : list (list N * V),
             Forall P acc -> Forall P items ->
             Forall P (fold_left (fun d kv => dict_set kv.1 kv.2 d) items acc)).
  { induction items as [|[k v] items IH]; intros acc Hacc Hitems; [done|].
    apply Forall_cons in Hitems as [Hkv Hitems].
    cbn. apply IH; [|done]. by apply dict_set_Forall. }
  intros Hitems. by apply Hgen.
Qed.

Lemma join_items_strings_ok (items : list (list N * list N)) :
  all_str items = true -> strings_ok (join_items items).
Proof.
  unfold all_str, strings_ok, join_items. intros Hok.
  induction items as [|[k v] items IH]; [constructor|].
  cbn [forallb] in Hok. apply andb_prop in Hok as [Hkv Hok].
  apply andb_prop in Hkv as [Hk Hv]. cbn [List.map fst snd] in *.
  apply Forall_cons. split; [|by apply IH].
  cbn [fst snd].
  repeat split;
    first [ by apply (join_surrogates_is_str _ _ (le_n _))
          | apply (join_surrogates_no_pair _ _ (le_n _)) ].
Qed.

End json_more_facts.

(** X11: what [json.loads(json.dumps(d))] is, for every flat dict of
    strings.  The decoder accepts whatever the encoder writes, and what
    comes back is the dict of the items with every surrogate pair joined
    into its code point (two keys that become equal are one key, with the
    last value).  For the invocation payload: the same two fields, pairs
    joined in [message] and in [correlationID]. *)
Theorem json_round_trip_joins_surrogate_pairs :
  (forall items : list (list N * list N),
      all_str items = true ->
      json.loads (json.dumps items) = Some (dict_display (join_items items)))
  /\ (forall message correlationID : list N,
        is_str message = true -> is_str correlationID = true ->
        json.loads (json.dumps [(py "message", message); (py "correlationID", correlationID)])
        = Some [(py "message", join_surrogates message);
                (py "correlationID", join_surrogates correlationID)]).
Proof.
  split.
  - intros items Hok. by apply json_more_facts.loads_dumps_join.
  - intros message correlationID Hm Hc.
    rewrite json_more_facts.loads_dumps_join.
    + reflexivity.
    + unfold all_str. cbn [forallb fst snd]. by rewrite Hm, Hc.
Qed.

Lemma json_round_trip_joins_surrogate_pairs_witness :
  json.loads (json.dumps [(split_emoji, py "a"); ([0x1f600], py "b")])
  = Some [([0x1f600], py "b")]
  /\ json.loads (json.dumps [(py "message", split_emoji ++ [0xd83d]);
                             (py "correlationID", py "123")])
     = Some [(py "message", [0x1f600; 0xd83d]); (py "correlationID", py "123")].
Proof.
  destruct json_round_trip_joins_surrogate_pairs as [Hall Hpayload].
  split.
  - apply (Hall [(split_emoji, py "a"); ([0x1f600], py "b")]). reflexivity.
  - apply (Hpayload (split_emoji ++ [0xd83d]) (py "123")); reflexivity.
Defined.

(** X12: what has come back once comes back unchanged.  For every flat
    dict of strings, the dict that [json.loads(json.dumps(...))] returns
    makes the round trip as it is: a second round trip changes nothing. *)
Theorem json_round_trip_is_idempotent :
  forall items back : list (list N * list N),
    all_str items = true ->
    json.loads (json.dumps items) = Some back ->
    json.loads (json.dumps back) = Some back.
Proof.
  intros items back Hok Hback.
  rewrite (json_more_facts.loads_dumps_join items Hok) in Hback.
  injection Hback as <-.
  apply json_facts.loads_dumps.
  - apply json_more_facts.dict_display_keys.
  - apply json_more_facts.dict_display_Forall.
    by apply json_more_facts.join_items_strings_ok.
Qed.

Lemma json_round_trip_is_idempotent_witness :
  json.loads (json.dumps [(py "message", [0x1f600]); (py "correlationID", py "123")])
  = Some [(py "message", [0x1f600]); (py "correlationID", py "123")].
Proof.
  apply (json_round_trip_is_idempotent
           [(py "message", split_emoji); (py "correlationID", py "123")]);
    reflexivity.
Defined.
